(** * Policy-Vault: validated form submission (PolicyForm and Login)

    A shallow embedding of the two React components of the repository,
    [PolicyForm] and [Login], together with the parts of their run-time
    environment that decide their behaviour: JavaScript strings and
    numbers, [Number], [Date], the zod schema combinators, the resolver
    and [handleSubmit] of react-hook-form, and [async] functions with
    [try]/[catch]/[finally]. *)

From Stdlib Require Import ZArith NArith List String Ascii Bool Lia SpecFloat.
From stdpp Require Import base option list gmap strings.

Local Open Scope Z_scope.
Set Warnings "-register-all".

(** ** JavaScript values *)

Module JS.

(** A JavaScript string is a sequence of UTF-16 code units; [length] is
    the number of code units, as [String.prototype.length] is. *)
Abbreviation jsstring := (list N).

(** ASCII literals of the source, as code units. *)
Fixpoint js (s : string) : jsstring :=
  match s with
  | EmptyString => []
  | String a s' => N_of_ascii a :: js s'
  end.

Arguments js : simpl never.

Definition jsstring_eqb (a b : jsstring) : bool := bool_decide (a = b).

(** A JavaScript number is an IEEE 754 binary64 value. *)
Abbreviation number := spec_float.

Definition prec : Z := 53.
Definition emax : Z := 1024.

Definition NaN : number := S754_nan.
Definition Infinity : number := S754_infinity false.
Definition pos_zero : number := S754_zero false.

(** The number denoted by an integer literal of the source ([0], [5]). *)
Definition num (z : Z) : number := binary_normalize prec emax z 0 false.
Arguments num : simpl never.

Definition number_isNaN (x : number) : bool :=
  match x with S754_nan => true | _ => false end.

Definition number_isFinite (x : number) : bool :=
  match x with S754_zero _ | S754_finite _ _ _ => true | _ => false end.

(** [x > y] and [x <= y] on numbers: false as soon as one side is NaN. *)
Definition gt (x y : number) : bool := SFltb y x.
Definition le (x y : number) : bool := SFleb x y.

Inductive jsval :=
| JUndefined
| JNull
| JBool (b : bool)
| JNum (x : number)
| JStr (s : jsstring)
| JObj (props : list (string * jsval)).

(** ToBoolean. *)
Definition truthy (v : jsval) : bool :=
  match v with
  | JUndefined | JNull => false
  | JBool b => b
  | JNum (S754_zero _) | JNum S754_nan => false
  | JNum _ => true
  | JStr s => negb (jsstring_eqb s [])
  | JObj _ => true
  end.

(** [a || b]. *)
Definition or_else (a b : jsval) : jsval := if truthy a then a else b.

Fixpoint assoc (k : string) (props : list (string * jsval)) : option jsval :=
  match props with
  | [] => None
  | (k', v) :: rest => if String.eqb k k' then Some v else assoc k rest
  end.

Definition keys (v : jsval) : list string :=
  match v with JObj props => map fst props | _ => [] end.

(** *** StringToNumber *)

Definition isStrWhiteSpaceChar (c : N) : bool :=
  (existsb (N.eqb c)
     [9; 10; 11; 12; 13; 32; 160; 5760; 8232; 8233; 8239; 8287; 12288; 65279]
   || ((8192 <=? c) && (c <=? 8202)))%N.

Fixpoint trimStart (s : jsstring) : jsstring :=
  match s with
  | c :: s' => if isStrWhiteSpaceChar c then trimStart s' else s
  | [] => []
  end.

Definition trim (s : jsstring) : jsstring :=
  rev (trimStart (rev (trimStart s))).

Definition digitValue (c : N) : option Z :=
  if ((48 <=? c) && (c <=? 57))%N then Some (Z.of_N c - 48)
  else if ((97 <=? c) && (c <=? 102))%N then Some (Z.of_N c - 87)
  else if ((65 <=? c) && (c <=? 70))%N then Some (Z.of_N c - 55)
  else None.

Definition digitIn (radix : Z) (c : N) : option Z :=
  match digitValue c with
  | Some d => if d <? radix then Some d else None
  | None => None
  end.

(** The longest prefix of digits of the radix, and the rest. *)
Fixpoint spanDigits (radix : Z) (s : jsstring) : list Z * jsstring :=
  match s with
  | c :: s' =>
      match digitIn radix c with
      | Some d => let '(ds, r) := spanDigits radix s' in (d :: ds, r)
      | None => ([], s)
      end
  | [] => ([], [])
  end.

Definition digitsValue (radix : Z) (ds : list Z) : Z :=
  fold_left (fun acc d => acc * radix + d) ds 0.

(** The binary64 value nearest to [m * 10 ^ e10] (ties to even), with the
    sign [neg]. *)
Definition roundDecimal (neg : bool) (m e10 : Z) : number :=
  match m with
  | Zpos p =>
      if 0 <=? e10
      then binary_round prec emax neg (p * Z.to_pos (10 ^ e10)) 0
      else SFdiv prec emax (S754_finite neg p 0)
                           (S754_finite false (Z.to_pos (10 ^ (- e10))) 0)
  | _ => S754_zero neg
  end.

(** ExponentPart, when present: [e] or [E], an optional sign, digits. *)
Definition parseExponent (s : jsstring) : option Z :=
  match s with
  | [] => Some 0
  | c :: r =>
      if ((c =? 101) || (c =? 69))%N then
        let '(neg, r') :=
          match r with
          | 43%N :: r' => (false, r')
          | 45%N :: r' => (true, r')
          | _ => (false, r)
          end in
        match spanDigits 10 r' with
        | ((_ :: _) as ds, []) =>
            Some (if neg then - digitsValue 10 ds else digitsValue 10 ds)
        | _ => None
        end
      else None
  end.

(** StrUnsignedDecimalLiteral. *)
Definition parseUnsignedDecimal (neg : bool) (s : jsstring) : number :=
  if jsstring_eqb s (js "Infinity") then S754_infinity neg
  else
    let '(ip, r1) := spanDigits 10 s in
    let '(fp, r2) :=
      match r1 with
      | 46%N :: r => spanDigits 10 r
      | _ => ([], r1)
      end in
    match ip, fp with
    | [], [] => NaN
    | _, _ =>
        match parseExponent r2 with
        | Some e =>
            roundDecimal neg (digitsValue 10 (ip ++ fp))
                         (e - Z.of_nat (length fp))
        | None => NaN
        end
    end.

(** NonDecimalIntegerLiteral: [0x], [0o], [0b] and their digits. *)
Definition parseNonDecimal (radix : Z) (s : jsstring) : number :=
  match spanDigits radix s with
  | ((_ :: _) as ds, []) => num (digitsValue radix ds)
  | _ => NaN
  end.

Definition StringToNumber (str : jsstring) : number :=
  match trim str with
  | [] => pos_zero
  | 43%N :: r => parseUnsignedDecimal false r
  | 45%N :: r => parseUnsignedDecimal true r
  | 48%N :: 120%N :: r | 48%N :: 88%N :: r => parseNonDecimal 16 r
  | 48%N :: 111%N :: r | 48%N :: 79%N :: r => parseNonDecimal 8 r
  | 48%N :: 98%N :: r | 48%N :: 66%N :: r => parseNonDecimal 2 r
  | s => parseUnsignedDecimal false s
  end.

(** [Number(value)]: ToNumber. An object of this model has data
    properties only, so its primitive value is the string
    "[object Object]". *)
Definition Number (value : jsval) : number :=
  match value with
  | JUndefined => NaN
  | JNull => pos_zero
  | JBool b => if b then num 1 else pos_zero
  | JNum x => x
  | JStr s => StringToNumber s
  | JObj _ => NaN
  end.

(** The global [isNaN], applied to a number. *)
Definition isNaN (x : number) : bool := number_isNaN x.

(** *** Completions: a value, or a thrown value *)

Inductive Completion (A : Type) :=
| Normal (a : A)
| Abrupt (thrown : jsval).
Arguments Normal {A} a.
Arguments Abrupt {A} thrown.

(** What ECMAScript leaves to the implementation: the date formats
    [Date.parse] accepts beyond the standard one, and the texts of the
    run-time errors. *)
Record Engine := {
  parseOther : jsstring -> option Z;
  invalidTimeMessage : jsstring;
  notAnObjectMessage : jsstring;
}.

Definition RangeError (message : jsstring) : jsval :=
  JObj [("name"%string, JStr (js "RangeError")); ("message"%string, JStr message)].

Definition TypeError (message : jsstring) : jsval :=
  JObj [("name"%string, JStr (js "TypeError")); ("message"%string, JStr message)].

(** [error.message]: reading a property of [undefined] or [null] throws;
    a primitive has no property of that name. *)
Definition getMessage (E : Engine) (error : jsval) : Completion jsval :=
  match error with
  | JUndefined | JNull => Abrupt (TypeError (notAnObjectMessage E))
  | JObj props => Normal (default JUndefined (assoc "message" props))
  | _ => Normal JUndefined
  end.

(** *** Date *)

(** A time value: milliseconds since the epoch, or [None] for NaN. *)
Abbreviation timeValue := (option Z).

Definition msPerDay : Z := 86400000.

Definition TimeClip (t : Z) : timeValue :=
  if Z.abs t <=? 8640000000000000 then Some t else None.

Definition isLeapYear (y : Z) : bool :=
  (y mod 4 =? 0) && (negb (y mod 100 =? 0) || (y mod 400 =? 0)).

Definition daysInMonth (y m : Z) : Z :=
  if m =? 2 then (if isLeapYear y then 29 else 28)
  else if (m =? 4) || (m =? 6) || (m =? 9) || (m =? 11) then 30
  else 31.

(** Day number (days since the epoch) of a date of the proleptic
    Gregorian calendar, and back. *)
Definition daysFromCivil (y m d : Z) : Z :=
  let y' := if m <=? 2 then y - 1 else y in
  let era := y' / 400 in
  let yoe := y' - era * 400 in
  let doy := (153 * (if 2 <? m then m - 3 else m + 9) + 2) / 5 + d - 1 in
  let doe := yoe * 365 + yoe / 4 - yoe / 100 + doy in
  era * 146097 + doe - 719468.

Definition civilFromDays (days : Z) : Z * Z * Z :=
  let z := days + 719468 in
  let era := z / 146097 in
  let doe := z - era * 146097 in
  let yoe := (doe - doe / 1460 + doe / 36524 - doe / 146096) / 365 in
  let doy := doe - (365 * yoe + yoe / 4 - yoe / 100) in
  let mp := (5 * doy + 2) / 153 in
  let d := doy - (153 * mp + 2) / 5 + 1 in
  let m := if mp <? 10 then mp + 3 else mp - 9 in
  ((if m <=? 2 then yoe + era * 400 + 1 else yoe + era * 400), m, d).

(** The date-only forms of the Date Time String Format: [YYYY],
    [YYYY-MM] and [YYYY-MM-DD], read as UTC. *)
Inductive DateOnly :=
| Recognised (t : Z)
| IllegalElement
| OtherFormat.

Definition fixedDigits (n : nat) (s : jsstring) : option Z :=
  match spanDigits 10 s with
  | (ds, []) => if Nat.eqb (length ds) n then Some (digitsValue 10 ds) else None
  | _ => None
  end.

Definition dateOnlyOf (y m d : Z) : DateOnly :=
  if (1 <=? m) && (m <=? 12) && (1 <=? d) && (d <=? 31) then
    if d <=? daysInMonth y m
    then Recognised (daysFromCivil y m d * msPerDay)
    else OtherFormat
  else IllegalElement.

Definition parseDateOnly (s : jsstring) : DateOnly :=
  match fixedDigits 4 (take 4 s), drop 4 s with
  | Some y, [] => dateOnlyOf y 1 1
  | Some y, 45%N :: r =>
      match fixedDigits 2 (take 2 r), drop 2 r with
      | Some m, [] => dateOnlyOf y m 1
      | Some m, 45%N :: r' =>
          match fixedDigits 2 r' with
          | Some d => dateOnlyOf y m d
          | None => OtherFormat
          end
      | _, _ => OtherFormat
      end
  | _, _ => OtherFormat
  end.

(** [Date.parse]. *)
Definition Date_parse (E : Engine) (s : jsstring) : timeValue :=
  match parseDateOnly s with
  | Recognised t => TimeClip t
  | IllegalElement => None
  | OtherFormat => t ← parseOther E s; TimeClip t
  end.

(** The integral part of a finite number. *)
Definition truncate (x : number) : option Z :=
  match x with
  | S754_zero _ => Some 0
  | S754_finite s m e =>
      let a := if 0 <=? e then Zpos m * 2 ^ e else Zpos m / 2 ^ (- e) in
      Some (if s then - a else a)
  | _ => None
  end.

(** [new Date(value)], as the time value of the new object. *)
Definition newDate (E : Engine) (value : jsval) : timeValue :=
  match value with
  | JStr s => Date_parse E s
  | JObj _ => Date_parse E (js "[object Object]")
  | v => t ← truncate (Number v); TimeClip t
  end.

Fixpoint pad (width : nat) (n : Z) : jsstring :=
  match width with
  | O => []
  | S w => pad w (n / 10) ++ [Z.to_N (48 + n mod 10)]
  end.

Definition isoYear (y : Z) : jsstring :=
  if (0 <=? y) && (y <=? 9999) then pad 4 y
  else (if y <? 0 then 45%N else 43%N) :: pad 6 (Z.abs y).

(** [Date.prototype.toISOString]. *)
Definition toISOString (E : Engine) (tv : timeValue) : Completion jsstring :=
  match tv with
  | None => Abrupt (RangeError (invalidTimeMessage E))
  | Some t =>
      let '(y, m, d) := civilFromDays (t / msPerDay) in
      let ms := t mod msPerDay in
      Normal (isoYear y ++ js "-" ++ pad 2 m ++ js "-" ++ pad 2 d ++ js "T"
              ++ pad 2 (ms / 3600000) ++ js ":" ++ pad 2 (ms / 60000 mod 60)
              ++ js ":" ++ pad 2 (ms / 1000 mod 60) ++ js "."
              ++ pad 3 (ms mod 1000) ++ js "Z")
  end.

End JS.

(** ** zod: schemas, and the resolver react-hook-form runs them through *)

Module Zod.
Import JS.

Inductive ZodStringCheck :=
| check_min (value : nat) (message : jsstring)
| check_email (message : jsstring).

(** [z.string()] with its checks, and [schema.refine(check, { message })]. *)
Inductive ZodType :=
| ZodString (checks : list ZodStringCheck)
| ZodEffects (schema : ZodType) (refinement : jsstring -> bool) (message : jsstring).

(** [z.object({ ... })]: the shape, in the order of its keys. *)
Abbreviation ZodObject := (list (string * ZodType)).

Inductive ParseStatus := valid | dirty | aborted.

Record ZodIssue := { path : string; message : jsstring }.

(** What the resolver hands to [handleSubmit]: the parsed values, or the
    error of each field that has one. *)
Inductive Resolution :=
| Valid (values : gmap string jsstring)
| Invalid (errors : gmap string jsstring).

Section Parse.

(** The regular expression behind [.email()] is zod's own. *)
Variable emailRegex : jsstring -> bool.

Definition checkPasses (input : jsstring) (check : ZodStringCheck) : bool :=
  match check with
  | check_min value _ => negb (length input <? value)%nat
  | check_email _ => emailRegex input
  end.

Definition checkMessage (check : ZodStringCheck) : jsstring :=
  match check with
  | check_min _ message => message
  | check_email message => message
  end.

(** [ZodString._parse]: a value that is not a string aborts with the
    issue "Required"; then every check is run and adds its issue. *)
Definition parseString (checks : list ZodStringCheck) (input : option jsstring)
  : ParseStatus * list jsstring :=
  match input with
  | None => (aborted, [js "Required"])
  | Some s =>
      let issues :=
        flat_map (fun c => if checkPasses s c then [] else [checkMessage c]) checks in
      (match issues with [] => valid | _ => dirty end, issues)
  end.

(** [_parse]: the status and the messages of the issues added, in order.
    [ZodEffects] parses the inner schema first and runs the refinement
    unless that aborted. *)
Fixpoint parse (t : ZodType) (input : option jsstring) : ParseStatus * list jsstring :=
  match t with
  | ZodString checks => parseString checks input
  | ZodEffects schema refinement message =>
      let '(status, issues) := parse schema input in
      match status, input with
      | aborted, _ | _, None => (aborted, issues)
      | _, Some s =>
          if refinement s then (status, issues) else (dirty, issues ++ [message])
      end
  end.

(** [ZodObject._parse]: every key of the shape is parsed, whatever the
    others gave; unknown keys of the input are stripped. *)
Definition parseObject (shape : ZodObject) (data : gmap string jsstring)
  : list ZodIssue * gmap string jsstring :=
  fold_right
    (fun '(key, t) '(issues, out) =>
       (map (Build_ZodIssue key) (snd (parse t (data !! key))) ++ issues,
        match data !! key with Some s => <[key := s]> out | None => out end))
    ([], ∅) shape.

(** [parseErrorSchema] of the resolver: the first issue of each path. *)
Definition parseErrorSchema (issues : list ZodIssue) : gmap string jsstring :=
  fold_left
    (fun errors issue =>
       match errors !! path issue with
       | Some _ => errors
       | None => <[path issue := message issue]> errors
       end)
    issues ∅.

Definition zodResolver (schema : ZodObject) (values : gmap string jsstring) : Resolution :=
  match parseObject schema values with
  | ([], data) => Valid data
  | (issues, _) => Invalid (parseErrorSchema issues)
  end.

(** The constraint of a field, as a predicate on its value. *)
Fixpoint holds (t : ZodType) (input : option jsstring) : bool :=
  match t, input with
  | _, None => false
  | ZodString checks, Some s => forallb (checkPasses s) checks
  | ZodEffects schema refinement _, Some s => holds schema input && refinement s
  end.

End Parse.

End Zod.

(** ** Asynchronous functions *)

Module Async.
Import JS.

(** The operations a handler performs on the component's state and on
    its collaborators. *)
Inductive Op :=
| SetIsSubmitting (b : bool)
| SetError (message : jsval)
| ConsoleLog (args : list jsval)
| ConsoleError (args : list jsval)
| ToastSuccess (message : jsval)
| ToastError (message : jsval)
| OnAddPolicy (savedPolicy : jsval)
| OnClose
| Navigate (to : jsstring)
| AddPolicy (newPolicy : jsval)
| LoginWith (credentials : jsval).

(** A run of a function body: it returns, throws, or performs an
    operation and goes on with its completion. *)
Inductive Task (A : Type) :=
| Ret (a : A)
| Throw (thrown : jsval)
| Call (op : Op) (k : Completion jsval -> Task A).
Arguments Ret {A} a.
Arguments Throw {A} thrown.
Arguments Call {A} op k.

Fixpoint bind {A B} (t : Task A) (f : A -> Task B) : Task B :=
  match t with
  | Ret a => f a
  | Throw e => Throw e
  | Call op k => Call op (fun r => bind (k r) f)
  end.

#[global] Instance Task_ret : MRet Task := @Ret.
#[global] Instance Task_bind : MBind Task := fun A B f t => bind t f.

Definition lift {A} (c : Completion A) : Task A :=
  match c with
  | Normal a => Ret a
  | Abrupt e => Throw e
  end.

(** A call ([f(x)], or [await f(x)]): its value, or what it throws or
    rejects with, thrown again here. *)
Definition perform (op : Op) : Task jsval := Call op lift.

(** [try { body } catch (error) { handler }]. *)
Fixpoint try_catch {A} (body : Task A) (handler : jsval -> Task A) : Task A :=
  match body with
  | Ret a => Ret a
  | Throw e => handler e
  | Call op k => Call op (fun r => try_catch (k r) handler)
  end.

(** [try { body } finally { cleanup }]: the cleanup runs however the body
    ends, and the body's completion stands unless the cleanup throws. *)
Fixpoint try_finally {A} (body : Task A) (cleanup : Task unit) : Task A :=
  match body with
  | Ret a => bind cleanup (fun _ => Ret a)
  | Throw e => bind cleanup (fun _ => Throw e)
  | Call op k => Call op (fun r => try_finally (k r) cleanup)
  end.

Definition try_catch_finally {A} (body : Task A) (handler : jsval -> Task A)
    (cleanup : Task unit) : Task A :=
  try_finally (try_catch body handler) cleanup.

Definition void (t : Task jsval) : Task unit := bind t (fun _ => Ret tt).

Definition setIsSubmitting (b : bool) : Task unit := void (perform (SetIsSubmitting b)).
Definition setError (message : jsval) : Task unit := void (perform (SetError message)).
Definition console_log (args : list jsval) : Task unit := void (perform (ConsoleLog args)).
Definition console_error (args : list jsval) : Task unit := void (perform (ConsoleError args)).
Definition toast_success (message : jsval) : Task unit := void (perform (ToastSuccess message)).
Definition toast_error (message : jsval) : Task unit := void (perform (ToastError message)).
Definition navigate (to : jsstring) : Task unit := void (perform (Navigate to)).

(** [data.key], for the object of field values. *)
Definition field (data : gmap string jsstring) (key : string) : jsval :=
  match data !! key with
  | Some s => JStr s
  | None => JUndefined
  end.

End Async.

(** ** The form component: its state, and how it runs a handler *)

Module Form.
Import JS Zod Async.

(** What a form component brings: its schema, its default values and
    its submit handler. *)
Record Component := {
  schema : ZodObject;
  defaultValues : gmap string jsstring;
  onSubmit : gmap string jsstring -> Task unit;
}.

(** The callbacks the parent passes to [PolicyForm], by what a call of
    each completes with. *)
Record Props := {
  onAddPolicy : jsval -> Completion jsval;
  onClose : Completion jsval;
}.

(** A mounted form: the field values and the error mapping kept by
    react-hook-form, the [isSubmitting] and [error] states of the
    component, the handlers suspended at an [await], and every operation
    performed so far, oldest first. *)
Record View := {
  values : gmap string jsstring;
  errors : gmap string jsstring;
  isSubmitting : bool;
  error : jsval;
  pending : list (Completion jsval -> Task unit);
  effects : list Op;
}.

Definition set_values (f : gmap string jsstring -> gmap string jsstring) (v : View) : View :=
  {| values := f (values v); errors := errors v; isSubmitting := isSubmitting v;
     error := error v; pending := pending v; effects := effects v |}.

Definition set_errors (errs : gmap string jsstring) (v : View) : View :=
  {| values := values v; errors := errs; isSubmitting := isSubmitting v;
     error := error v; pending := pending v; effects := effects v |}.

Definition set_pending (ks : list (Completion jsval -> Task unit)) (v : View) : View :=
  {| values := values v; errors := errors v; isSubmitting := isSubmitting v;
     error := error v; pending := ks; effects := effects v |}.

(** An operation takes effect: it is recorded, and a state setter
    updates its state. *)
Definition apply (op : Op) (v : View) : View :=
  {| values := values v; errors := errors v;
     isSubmitting := match op with SetIsSubmitting b => b | _ => isSubmitting v end;
     error := match op with SetError message => message | _ => error v end;
     pending := pending v; effects := effects v ++ [op] |}.

Definition isRemote (op : Op) : bool :=
  match op with
  | AddPolicy _ | LoginWith _ => true
  | _ => false
  end.

Section Run.

Variable P : Props.

(** What a call that is not awaited completes with: the callbacks of the
    parent as [Props] says, the rest with [undefined]. *)
Definition respond (op : Op) : Completion jsval :=
  match op with
  | OnAddPolicy savedPolicy => onAddPolicy P savedPolicy
  | OnClose => onClose P
  | _ => Normal JUndefined
  end.

(** Runs a handler until it ends or awaits a remote call; an awaited
    call is issued and the rest of the handler is kept in [pending]. An
    exception that leaves the handler is rethrown by [handleSubmit] and
    changes nothing here. *)
Fixpoint run (t : Task unit) (v : View) : View :=
  match t with
  | Ret _ | Throw _ => v
  | Call op k =>
      if isRemote op
      then set_pending (pending v ++ [k]) (apply op v)
      else run (k (respond op)) (apply op v)
  end.

Variable emailRegex : jsstring -> bool.
Variable C : Component.

Definition mount : View :=
  {| values := defaultValues C; errors := ∅; isSubmitting := false;
     error := JStr []; pending := []; effects := [] |}.

(** [form.handleSubmit(onSubmit)]: the resolver is run on the current
    values; with errors they are written and the handler is not called,
    without errors the handler is called with the parsed values. *)
Definition handleSubmit (v : View) : View :=
  match zodResolver emailRegex (schema C) (values v) with
  | Invalid errs => set_errors errs v
  | Valid data => run (onSubmit C data) (set_errors ∅ v)
  end.

Inductive Event :=
| Change (name : string) (value : jsstring)
| Submit
| Settle (i : nat) (outcome : Completion jsval).

(** One event of the page: the user types into a field, the user
    triggers the submission, a remote call settles. The submit button
    is rendered with [disabled={isSubmitting}], and a disabled button
    submits nothing. [errors] is the mapping written by the last
    submission; typing does not touch it here. *)
Definition step (v : View) (ev : Event) : View :=
  match ev with
  | Change name value => set_values (insert name value) v
  | Submit => if isSubmitting v then v else handleSubmit v
  | Settle i outcome =>
      match pending v !! i with
      | Some k => run (k outcome) (set_pending (delete i (pending v)) v)
      | None => v
      end
  end.

Definition steps (evs : list Event) (v : View) : View := fold_left step evs v.


(** The remote calls among the operations performed. *)
Definition remoteCalls (v : View) : list Op := List.filter isRemote (effects v).



(** No submission under way. *)
Definition idle (v : View) : Prop := isSubmitting v = false /\ pending v = [].

End Run.

End Form.

(** ** PolicyForm *)

Module PolicyForm.
Import JS Zod Async Form.

Definition formSchema : ZodObject := [
  ("name"%string,
    ZodString [check_min 3 (js "Policy name must be at least 3 characters")]);
  ("company"%string,
    ZodString [check_min 2 (js "Company name must be at least 2 characters")]);
  ("value"%string,
    ZodEffects (ZodString [])
      (fun val => negb (isNaN (Number (JStr val))) && gt (Number (JStr val)) (num 0))
      (js "Value must be a positive number"));
  ("premium"%string,
    ZodEffects (ZodString [])
      (fun val => negb (isNaN (Number (JStr val))) && gt (Number (JStr val)) (num 0))
      (js "Premium must be a positive number"));
  ("startDate"%string, ZodString [check_min 1 (js "Start date is required")]);
  ("endDate"%string, ZodString [check_min 1 (js "End date is required")]);
  ("nominees"%string,
    ZodEffects (ZodString [])
      (fun val => negb (isNaN (Number (JStr val))) && gt (Number (JStr val)) (num 0)
                  && le (Number (JStr val)) (num 5))
      (js "Nominees must be between 1 and 5"))
].

Definition defaultValues : gmap string jsstring :=
  <["name"%string := []]> (<["company"%string := []]> (<["value"%string := []]>
  (<["premium"%string := []]> (<["startDate"%string := []]>
  (<["endDate"%string := []]> (<["nominees"%string := js "1"]> ∅)))))).

(** The object literal of [onSubmit]. *)
Definition newPolicy (data : gmap string jsstring) (startDate endDate : jsstring) : jsval :=
  JObj [
    ("name"%string, field data "name");
    ("company"%string, field data "company");
    ("value"%string, JNum (Number (field data "value")));
    ("premium"%string, JNum (Number (field data "premium")));
    ("startDate"%string, JStr startDate);
    ("endDate"%string, JStr endDate);
    ("status"%string, JStr (js "Active"))
  ].

Section Handler.

Variable E : Engine.

Definition onSubmit (data : gmap string jsstring) : Task unit :=
  setIsSubmitting true;;
  try_catch_finally
    (startDate ← lift (toISOString E (newDate E (field data "startDate")));
     endDate ← lift (toISOString E (newDate E (field data "endDate")));
     console_log [JStr (js "Submitting policy to backend:");
                  newPolicy data startDate endDate];;
     savedPolicy ← perform (AddPolicy (newPolicy data startDate endDate));
     void (perform (OnAddPolicy savedPolicy));;
     toast_success (JStr (js "Policy added successfully"));;
     void (perform OnClose))
    (fun error =>
       message ← lift (getMessage E error);
       toast_error (or_else message (JStr (js "Failed to add policy. Please try again.")));;
       console_error [JStr (js "Policy add error:"); error])
    (setIsSubmitting false).

Definition component : Component :=
  {| schema := formSchema; Form.defaultValues := defaultValues; Form.onSubmit := onSubmit |}.

End Handler.

End PolicyForm.

(** ** Login *)

Module Login.
Import JS Zod Async Form.

Definition formSchema : ZodObject := [
  ("email"%string, ZodString [check_email (js "Please enter a valid email address")]);
  ("password"%string, ZodString [check_min 1 (js "Password is required")])
].

Definition defaultValues : gmap string jsstring :=
  <["email"%string := []]> (<["password"%string := []]> ∅).

Definition credentials (values : gmap string jsstring) : jsval :=
  JObj [("email"%string, field values "email");
        ("password"%string, field values "password")].

Section Handler.

Variable E : Engine.

Definition onSubmit (values : gmap string jsstring) : Task unit :=
  setIsSubmitting true;;
  setError (JStr []);;
  try_catch_finally
    (success ← perform (LoginWith (credentials values));
     if truthy success then
       console_log [JStr (js "Login successful, navigating to dashboard")];;
       navigate (js "/dashboard")
     else mret tt)
    (fun err =>
       console_error [JStr (js "Login error:"); err];;
       message ← lift (getMessage E err);
       setError (or_else message (JStr (js "Invalid email or password"))))
    (setIsSubmitting false).

Definition component : Component :=
  {| schema := formSchema; Form.defaultValues := defaultValues; Form.onSubmit := onSubmit |}.

End Handler.

End Login.

(** ** Vocabulary of the properties *)

Module Spec.
Import JS Zod Async Form.

Section Validation.

Variable emailRegex : jsstring -> bool.
Variable schema : ZodObject.
Variable values : gmap string jsstring.

(** The constraint of the field [key] holds, or is violated. *)
Definition satisfied (key : string) : Prop :=
  forall t, (key, t) ∈ schema -> holds emailRegex t (values !! key) = true.


(** All the issues of the fields, in the order of the shape. *)
Definition issuesOf : list ZodIssue :=
  flat_map (fun '(key, t) => map (Build_ZodIssue key) (snd (parse emailRegex t (values !! key))))
           schema.


(** Whether the schema accepts [input] as the value of the field [key]:
    parsing it adds no issue. *)
Definition accepts (key : string) (input : jsstring) : bool :=
  forallb (fun '(key', t) =>
             negb (String.eqb key key')
             || match snd (parse emailRegex t (Some input)) with
                | [] => true
                | _ => false
                end)
          schema.

End Validation.

Definition prop (key : string) (v : jsval) : option jsval :=
  match v with
  | JObj props => assoc key props
  | _ => None
  end.

(** A number that is not NaN and is greater than zero. *)
Definition positive (x : number) : Prop :=
  match x with
  | S754_infinity false | S754_finite false _ _ => True
  | _ => False
  end.

Section Handlers.

Variable P : Props.

(** The handler that ran from [w] is over in [w']: nothing is left
    pending from it, the flag is down, and the last thing it did was to
    take it down. *)
Definition released (w w' : View) : Prop :=
  pending w' = pending w
  /\ isSubmitting w' = false
  /\ last (effects w') = Some (SetIsSubmitting false).

(** A handler run from [v] either is over at once, or awaits one remote
    call with the flag up and is over once the call has settled,
    whatever it settled with and whenever. *)
Definition resetsOnEveryOutcome (t : Task unit) (v : View) : Prop :=
  released v (run P t v)
  \/ exists k, pending (run P t v) = pending v ++ [k]
               /\ isSubmitting (run P t v) = true
               /\ forall outcome w, released w (run P (k outcome) w).

(** Every cleanup of the handler, on every path, is the last thing done
    on that path: [last] is the operation done just before. *)
Fixpoint endsWithCleanup (cleanup : Op) (t : Task unit) (last : option Op) : Prop :=
  match t with
  | Ret _ | Throw _ => last = Some cleanup
  | Call op k => forall r, endsWithCleanup cleanup (k r) (Some op)
  end.

End Handlers.

Section Machine.

Variable P : Props.
Variable emailRegex : jsstring -> bool.
Variable C : Component.




End Machine.

End Spec.

(** ** Sample inputs *)

Module Sample.
Import JS Zod Async Form.

(** An engine that knows the standard date format only, with the
    messages of V8. *)
Definition engine : Engine :=
  {| parseOther := fun _ => None;
     invalidTimeMessage := js "Invalid time value";
     notAnObjectMessage := js "Cannot read properties of undefined (reading 'message')" |}.

(** A parent whose callbacks return. *)
Definition props : Props :=
  {| onAddPolicy := fun _ => Normal JUndefined; onClose := Normal JUndefined |}.

(** A stand-in for the regular expression of zod: an at sign occurs. *)
Definition emailRegex (s : jsstring) : bool := bool_decide (64%N ∈ s).

Definition policy : gmap string jsstring :=
  <["name"%string := js "Life"]> (<["company"%string := js "Met"]>
  (<["value"%string := js "100000"]> (<["premium"%string := js "50"]>
  (<["startDate"%string := js "2024-01-01"]> (<["endDate"%string := js "2025-01-01"]>
  (<["nominees"%string := js "2"]> ∅)))))).

Definition view (C : Component) (values : gmap string jsstring) : View :=
  set_values (fun _ => values) (mount C).

(** The error the policy service rejects a duplicate with. *)
Definition duplicatePolicy : jsval :=
  JObj [("message"%string, JStr (js "duplicate policy"))].

Definition policyView : View := view (PolicyForm.component engine) policy.

Definition account : gmap string jsstring :=
  <["email"%string := js "user@example.com"]> (<["password"%string := js "secret"]> ∅).

Definition loginView : View := view (Login.component engine) account.

End Sample.

(** ** What the pages show, and further vocabulary *)

Module Page.
Import JS Zod Async Form.

(** The error react-hook-form holds for a field after the resolver has
    run on [values]: what [FormMessage] shows under the field. *)
Definition fieldError (emailRegex : jsstring -> bool) (schema : ZodObject)
    (values : gmap string jsstring) (key : string) : option jsstring :=
  match zodResolver emailRegex schema values with
  | Valid _ => None
  | Invalid errs => errs !! key
  end.

(** [{error && (<div ...>{error}</div>)}] of the login page. *)
Definition errorBanner (v : View) : option jsval :=
  if truthy (error v) then Some (error v) else None.

(** [{isSubmitting ? 'Adding...' : 'Add Policy'}]. *)
Definition policySubmitLabel (v : View) : jsstring :=
  if isSubmitting v then js "Adding..." else js "Add Policy".


(** The submit triggers among the events. *)
Fixpoint submitCount (evs : list Event) : nat :=
  match evs with
  | [] => O
  | Submit :: evs' => S (submitCount evs')
  | _ :: evs' => submitCount evs'
  end.

Section Calls.

Variable P : Props.

(** The rest of a handler, once its remote call has settled, issues no
    remote call and awaits nothing. *)
Definition quiet (k : Completion jsval -> Task unit) : Prop :=
  forall outcome w,
    pending (run P (k outcome) w) = pending w
    /\ remoteCalls (run P (k outcome) w) = remoteCalls w.

(** A handler issues at most one remote call, and is quiet after it. *)
Definition callsAtMostOnce (t : Task unit) : Prop :=
  forall v,
    (pending (run P t v) = pending v /\ remoteCalls (run P t v) = remoteCalls v)
    \/ exists op k, pending (run P t v) = pending v ++ [k]
                    /\ remoteCalls (run P t v) = remoteCalls v ++ [op]
                    /\ quiet k.

End Calls.

End Page.

(** ** The calendar, era by era *)

Module Calendar.
Import JS.

(** The day of the 400-year era of a date, by its year of the era; and
    the date of a day of the era. These are the two halves of
    [daysFromCivil] and [civilFromDays] within one era. *)
Definition doeOf (yoe m d : Z) : Z :=
  yoe * 365 + yoe / 4 - yoe / 100
  + ((153 * (if 2 <? m then m - 3 else m + 9) + 2) / 5 + d - 1).

Definition civilOfDoe (doe : Z) : Z * Z * Z :=
  let yoe := (doe - doe / 1460 + doe / 36524 - doe / 146096) / 365 in
  let doy := doe - (365 * yoe + yoe / 4 - yoe / 100) in
  let mp := (5 * doy + 2) / 153 in
  let d := doy - (153 * mp + 2) / 5 + 1 in
  let m := if mp <? 10 then mp + 3 else mp - 9 in
  (yoe, m, d).

Fixpoint allBelow (n : nat) (p : nat -> bool) : bool :=
  match n with
  | O => true
  | S k => p k && allBelow k p
  end.

(** The date [d]/[m] of the year [yoe] of an era, when it exists, falls
    on a day of the era from which it is read back. *)
Definition dayChecked (yoe m d : Z) : bool :=
  negb (d <=? daysInMonth (if m <=? 2 then yoe + 1 else yoe) m)
  || ((0 <=? doeOf yoe m d) && (doeOf yoe m d <? 146097)
      && match civilOfDoe (doeOf yoe m d) with
         | (yoe', m', d') => (yoe' =? yoe) && (m' =? m) && (d' =? d)
         end).

Definition monthChecked (yoe m : Z) : bool :=
  allBelow 31 (fun k => dayChecked yoe m (1 + Z.of_nat k)).

Definition yearChecked (yoe : Z) : bool :=
  allBelow 12 (fun j => monthChecked yoe (1 + Z.of_nat j)).

(** The code unit of a decimal digit. *)
Definition digitChar (d : Z) : N := Z.to_N (48 + d).

End Calendar.

(** ** Further sample inputs *)

Module Scenario.
Import JS Zod Async Form.

(** The resource the policy service answers with. *)
Definition savedPolicy : jsval :=
  JObj [("_id"%string, JStr (js "65a1")); ("name"%string, JStr (js "Life"))].

(** A parent whose [onAddPolicy] throws. *)
Definition addThrows : Props :=
  {| onAddPolicy := fun _ => Abrupt (JObj [("message"%string, JStr (js "state update failed"))]);
     onClose := Normal JUndefined |}.

(** A parent whose [onClose] throws. *)
Definition closeThrows : Props :=
  {| onAddPolicy := fun _ => Normal JUndefined;
     onClose := Abrupt (JObj [("message"%string, JStr (js "cannot close"))]) |}.

Definition invalidCredentials : jsval :=
  JObj [("message"%string, JStr (js "Invalid credentials"))].

End Scenario.

(** ** The validation layer *)

Section ZodFacts.
Import JS Zod Spec.

Variable emailRegex : jsstring -> bool.

Lemma parseString_issues checks s :
  snd (parseString emailRegex checks (Some s)) = []
  <-> forallb (checkPasses emailRegex s) checks = true.
Proof.
  simpl. induction checks as [|c checks IH]; simpl; [done|].
  destruct (checkPasses emailRegex s c); simpl; [exact IH|].
  split; discriminate.
Qed.

Lemma parseString_status checks s :
  fst (parseString emailRegex checks (Some s)) <> aborted.
Proof. simpl. by destruct (flat_map _ checks). Qed.

Lemma parse_undefined t :
  fst (parse emailRegex t None) = aborted /\ snd (parse emailRegex t None) <> [].
Proof.
  induction t as [checks|t IH refinement message]; simpl; [done|].
  destruct (parse emailRegex t None) as [status issues]; simpl in *.
  destruct IH as [-> Hissues]. done.
Qed.

Lemma parse_string_value t s :
  fst (parse emailRegex t (Some s)) <> aborted
  /\ (snd (parse emailRegex t (Some s)) = [] <-> holds emailRegex t (Some s) = true).
Proof.
  induction t as [checks|t IH refinement message].
  - split; [apply parseString_status | apply parseString_issues].
  - simpl. destruct (parse emailRegex t (Some s)) as [status issues]; simpl in *.
    destruct IH as [Hstatus Hissues].
    destruct status; try done; destruct (refinement s); simpl;
      rewrite ?andb_true_r, ?andb_false_r; (split; [done|]);
      try exact Hissues; split; try discriminate; by destruct issues.
Qed.

(** A field has no issue exactly when its constraint holds. *)
Lemma parse_issues t input :
  snd (parse emailRegex t input) = [] <-> holds emailRegex t input = true.
Proof.
  destruct input as [s|].
  - apply parse_string_value.
  - split; [by intros ?%(proj2 (parse_undefined t)) | by destruct t].
Qed.

Lemma parseObject_issues schema values :
  fst (parseObject emailRegex schema values) = issuesOf emailRegex schema values.
Proof.
  induction schema as [|[key t] schema IH]; simpl; [done|].
  destruct (parseObject emailRegex schema values) as [issues out]; simpl in *.
  by rewrite IH.
Qed.

Lemma parseObject_data_sub schema values key s :
  snd (parseObject emailRegex schema values) !! key = Some s -> values !! key = Some s.
Proof.
  induction schema as [|[key' t] schema IH]; simpl; [by rewrite lookup_empty|].
  destruct (parseObject emailRegex schema values) as [issues out]; simpl in *.
  destruct (values !! key') as [s'|] eqn:Hkey'; [|exact IH].
  destruct (decide (key' = key)) as [->|Hne].
  - rewrite lookup_insert_eq. congruence.
  - by rewrite lookup_insert_ne.
Qed.

Lemma parseObject_data schema values key t :
  (key, t) ∈ schema ->
  snd (parseObject emailRegex schema values) !! key = values !! key.
Proof.
  induction schema as [|[key' t'] schema IH]; [by intros ?%elem_of_nil|].
  intros Hin. simpl.
  pose proof (parseObject_data_sub schema values key) as Hsub.
  destruct (parseObject emailRegex schema values) as [issues out]; simpl in *.
  destruct (decide (key' = key)) as [->|Hne].
  - destruct (values !! key) as [s|] eqn:Hkey; [by rewrite lookup_insert_eq|].
    destruct (out !! key) as [s|] eqn:Hout; [|done].
    specialize (Hsub _ eq_refl). congruence.
  - apply elem_of_cons in Hin as [[= ? ?]|Hin]; [congruence|].
    destruct (values !! key'); [rewrite lookup_insert_ne|]; auto.
Qed.

Lemma issuesOf_nil schema values :
  issuesOf emailRegex schema values = []
  <-> forall key, satisfied emailRegex schema values key.
Proof.
  unfold satisfied. induction schema as [|[key t] schema IH]; simpl.
  - split; [by intros _ ? ? ?%elem_of_nil | done].
  - split.
    + intros [Hhead Htail]%app_eq_nil k t' [[= -> ->]|Hin]%elem_of_cons.
      * apply parse_issues. by destruct (snd (parse emailRegex t (values !! key))).
      * by apply (proj1 IH Htail).
    + intros Hall. rewrite (proj2 (parse_issues t (values !! key))), (proj2 IH); [done| |].
      * intros k t' Hin. apply Hall, elem_of_cons. by right.
      * apply Hall, elem_of_cons. by left.
Qed.

(** The resolver keeps the first message of each path. *)
Lemma parseErrorSchema_lookup issues key :
  parseErrorSchema issues !! key
  = message <$> head (filter (fun i => path i = key) issues).
Proof.
  unfold parseErrorSchema.
  enough (forall acc,
    fold_left (fun errors issue =>
                 match errors !! path issue with
                 | Some _ => errors
                 | None => <[path issue := message issue]> errors
                 end) issues acc !! key
    = match acc !! key with
      | Some m => Some m
      | None => message <$> head (filter (fun i => path i = key) issues)
      end) as H by (rewrite H; by rewrite lookup_empty).
  induction issues as [|i issues IH]; intros acc; simpl.
  - by destruct (acc !! key).
  - rewrite IH, filter_cons. destruct (acc !! path i) as [m|] eqn:Hacc.
    + case_decide as Hp; [|done]. subst. by rewrite Hacc.
    + case_decide as Hp.
      * subst. by rewrite lookup_insert_eq, Hacc.
      * by rewrite lookup_insert_ne.
Qed.

Lemma filter_path_map key key' (messages : list jsstring) :
  filter (fun i => path i = key) (map (Build_ZodIssue key') messages)
  = if decide (key' = key) then map (Build_ZodIssue key') messages else [].
Proof.
  induction messages as [|m messages IH]; simpl; [by case_decide|].
  rewrite filter_cons, IH. simpl. by repeat case_decide.
Qed.

Lemma filter_issuesOf_other schema values key :
  key ∉ schema.*1 ->
  filter (fun i => path i = key) (issuesOf emailRegex schema values) = [].
Proof.
  induction schema as [|[key' t] schema IH]; simpl; [done|].
  intros [Hne Hnotin]%not_elem_of_cons. simpl in Hne.
  rewrite filter_app, filter_path_map, IH by done. by rewrite decide_False.
Qed.

Lemma filter_issuesOf schema values key t :
  NoDup schema.*1 -> (key, t) ∈ schema ->
  filter (fun i => path i = key) (issuesOf emailRegex schema values)
  = map (Build_ZodIssue key) (snd (parse emailRegex t (values !! key))).
Proof.
  induction schema as [|[key' t'] schema IH]; [by intros _ ?%elem_of_nil|].
  simpl. intros Hnodup Hin. apply NoDup_cons in Hnodup as [Hfresh Hnodup].
  rewrite filter_app, filter_path_map.
  apply elem_of_cons in Hin as [[= -> ->]|Hin].
  - rewrite decide_True by done.
    rewrite filter_issuesOf_other by done. by rewrite app_nil_r.
  - rewrite decide_False.
    + simpl. by apply IH.
    + intros ->. apply Hfresh. apply list_elem_of_fmap. by exists (key, t).
Qed.

(** The error written for a field is the first issue of that field. *)
Lemma errors_lookup schema values key t :
  NoDup schema.*1 -> (key, t) ∈ schema ->
  parseErrorSchema (issuesOf emailRegex schema values) !! key
  = head (snd (parse emailRegex t (values !! key))).
Proof.
  intros Hnodup Hin. rewrite parseErrorSchema_lookup, (filter_issuesOf _ _ _ t) by done.
  by destruct (snd (parse emailRegex t (values !! key))).
Qed.

Lemma errors_lookup_other schema values key :
  key ∉ schema.*1 ->
  parseErrorSchema (issuesOf emailRegex schema values) !! key = None.
Proof.
  intros Hnotin. by rewrite parseErrorSchema_lookup, filter_issuesOf_other.
Qed.

Lemma zodResolver_unfold schema values :
  zodResolver emailRegex schema values
  = match issuesOf emailRegex schema values with
    | [] => Valid (snd (parseObject emailRegex schema values))
    | issues => Invalid (parseErrorSchema issues)
    end.
Proof.
  unfold zodResolver. rewrite <- parseObject_issues.
  by destruct (parseObject emailRegex schema values) as [[|i issues] data].
Qed.


End ZodFacts.

Lemma PolicyForm_formSchema_NoDup : NoDup PolicyForm.formSchema.*1.
Proof. apply (bool_decide_unpack _). by vm_compute. Qed.

Lemma Login_formSchema_NoDup : NoDup Login.formSchema.*1.
Proof. apply (bool_decide_unpack _). by vm_compute. Qed.


(** ** The submit handlers *)

Section HandlerFacts.
Import JS Zod Async Form Spec.

Variable E : Engine.
Variable P : Props.

Lemma released_intro w w' ops :
  pending w' = pending w -> isSubmitting w' = false ->
  effects w' = ops ++ [SetIsSubmitting false] -> released w w'.
Proof. intros ? ? Heffects. repeat split; [done..|]. by rewrite Heffects, last_snoc. Qed.

(** Decides a run by cases on what the calls it depends on complete
    with. *)
Ltac run_cases :=
  cbn;
  repeat match goal with
    | |- context [lift ?c] => destruct c; cbn
    | |- context [onAddPolicy P ?v] => destruct (onAddPolicy P v); cbn
    | |- context [onClose P] => destruct (onClose P); cbn
    | |- context [if truthy ?v then _ else _] => destruct (truthy v); cbn
    end.

Ltac is_released := eapply released_intro; cbn; [reflexivity..].

Lemma PolicyForm_onSubmit_outcome data v :
  resetsOnEveryOutcome P (PolicyForm.onSubmit E data) v.
Proof.
  unfold resetsOnEveryOutcome, PolicyForm.onSubmit. run_cases.
  all: first [ left; is_released | right ].
  eexists. split; [reflexivity|]. split; [reflexivity|].
  intros outcome w. destruct outcome; run_cases; is_released.
Qed.

Lemma Login_onSubmit_outcome values v :
  resetsOnEveryOutcome P (Login.onSubmit E values) v.
Proof.
  unfold resetsOnEveryOutcome, Login.onSubmit. run_cases.
  right. eexists. split; [reflexivity|]. split; [reflexivity|].
  intros outcome w. destruct outcome; run_cases; is_released.
Qed.

(** A [finally] block that takes the flag down is the last thing done on
    every path through any body, however the body ends. *)
Lemma try_finally_endsWithCleanup (body : Task unit) last :
  endsWithCleanup (SetIsSubmitting false)
    (try_finally body (setIsSubmitting false)) last.
Proof.
  revert last. induction body as [a|e|op k IH]; intros last; simpl.
  - by intros [].
  - by intros [].
  - intros r. apply IH.
Qed.

End HandlerFacts.

(** C6. Every run of a submit handler, of the policy form and of the
    login form, ends with [isSubmitting] false: the handler either ends
    before any remote call (a date that does not convert), or awaits its
    remote call with the flag up, and whatever the call settles with, a
    value or a rejection, and whatever the later steps do, the last
    operation of the run is the [setIsSubmitting(false)] of the
    [finally] block. *)
Theorem submitting_reset_on_every_outcome :
  forall (E : JS.Engine) (P : Form.Props) (data : gmap string JS.jsstring) (v : Form.View),
    Spec.resetsOnEveryOutcome P (PolicyForm.onSubmit E data) v
    /\ Spec.resetsOnEveryOutcome P (Login.onSubmit E data) v.
Proof.
  intros E P data v. split.
  - apply PolicyForm_onSubmit_outcome.
  - apply Login_onSubmit_outcome.
Qed.

(** ** The form as a state machine *)

Section MachineFacts.
Import JS Zod Async Form Spec.

Variable P : Props.
Variable emailRegex : jsstring -> bool.
Variable C : Component.

Hypothesis onSubmit_outcome :
  forall data v, resetsOnEveryOutcome P (onSubmit C data) v.








End MachineFacts.



(** ** What passes validation, and what is dispatched *)

Section PolicyFacts.
Import JS Zod Async Form Spec.

Variable emailRegex : jsstring -> bool.

Lemma zodResolver_Valid schema values data :
  zodResolver emailRegex schema values = Valid data ->
  forall key t, (key, t) ∈ schema ->
    holds emailRegex t (values !! key) = true /\ data !! key = values !! key.
Proof.
  rewrite zodResolver_unfold. intros Hvalid key t Hin.
  destruct (issuesOf emailRegex schema values) eqn:Hissues; [|done].
  injection Hvalid as <-. split.
  - by apply (proj1 (issuesOf_nil _ _ _) Hissues).
  - by apply (parseObject_data _ _ _ _ t).
Qed.

Lemma holds_string_value t input :
  holds emailRegex t input = true -> exists s, input = Some s.
Proof. destruct input as [s|]; [by exists s | by destruct t]. Qed.

(** Membership in a schema that is written out. *)
Ltac in_schema :=
  repeat first [ apply list_elem_of_here | apply list_elem_of_further ].

(** The values that pass the schema of the policy form. *)
Lemma PolicyForm_valid values data :
  zodResolver emailRegex PolicyForm.formSchema values = Valid data ->
  exists name company value premium startDate endDate nominees,
    (values !! "name"%string = Some name /\ data !! "name"%string = Some name)
    /\ (values !! "company"%string = Some company /\ data !! "company"%string = Some company)
    /\ (values !! "value"%string = Some value /\ data !! "value"%string = Some value)
    /\ (values !! "premium"%string = Some premium /\ data !! "premium"%string = Some premium)
    /\ (values !! "startDate"%string = Some startDate
        /\ data !! "startDate"%string = Some startDate)
    /\ (values !! "endDate"%string = Some endDate /\ data !! "endDate"%string = Some endDate)
    /\ (values !! "nominees"%string = Some nominees
        /\ data !! "nominees"%string = Some nominees)
    /\ (3 <= length name)%nat /\ (2 <= length company)%nat
    /\ (isNaN (StringToNumber value) = false /\ gt (StringToNumber value) (num 0) = true)
    /\ (isNaN (StringToNumber premium) = false /\ gt (StringToNumber premium) (num 0) = true)
    /\ startDate <> [] /\ endDate <> []
    /\ (isNaN (StringToNumber nominees) = false
        /\ gt (StringToNumber nominees) (num 0) = true
        /\ le (StringToNumber nominees) (num 5) = true).
Proof.
  intros Hvalid. pose proof (zodResolver_Valid _ _ _ Hvalid) as Hfields.
  assert (forall key t, (key, t) ∈ PolicyForm.formSchema ->
            exists s, values !! key = Some s /\ data !! key = Some s
                      /\ holds emailRegex t (Some s) = true) as Hfield.
  { intros key t Hin. destruct (Hfields key t Hin) as [Hholds Hdata].
    destruct (holds_string_value _ _ Hholds) as [s Hs].
    exists s. by rewrite Hdata, <- Hs. }
  unfold PolicyForm.formSchema in Hfield.
  edestruct (Hfield "name"%string) as (name & ? & ? & Hname); [in_schema|].
  edestruct (Hfield "company"%string) as (company & ? & ? & Hcompany); [in_schema|].
  edestruct (Hfield "value"%string) as (value & ? & ? & Hvalue); [in_schema|].
  edestruct (Hfield "premium"%string) as (premium & ? & ? & Hpremium); [in_schema|].
  edestruct (Hfield "startDate"%string) as (startDate & ? & ? & HstartDate); [in_schema|].
  edestruct (Hfield "endDate"%string) as (endDate & ? & ? & HendDate); [in_schema|].
  edestruct (Hfield "nominees"%string) as (nominees & ? & ? & Hnominees); [in_schema|].
  exists name, company, value, premium, startDate, endDate, nominees.
  simpl in *.
  rewrite andb_true_r in Hname, Hcompany, HstartDate, HendDate.
  apply negb_true_iff, Nat.ltb_ge in Hname, Hcompany, HstartDate, HendDate.
  apply andb_true_iff in Hvalue as [Hvalue1%negb_true_iff Hvalue2].
  apply andb_true_iff in Hpremium as [Hpremium1%negb_true_iff Hpremium2].
  apply andb_true_iff in Hnominees as [[Hnominees1%negb_true_iff Hnominees2]%andb_true_iff Hnominees3].
  repeat split; try done; intros ->; simpl in *; lia.
Qed.

Lemma gt_zero_positive x : gt x (num 0) = true -> positive x.
Proof. by destruct x as [[]|[]| |[] m e]. Qed.

Lemma field_lookup (data : gmap string jsstring) key s :
  data !! key = Some s -> field data key = JStr s.
Proof. unfold field. by intros ->. Qed.

End PolicyFacts.

Section DispatchFacts.
Import JS Zod Async Form Spec.

Variable E : Engine.
Variable P : Props.

Ltac run_cases :=
  cbn;
  repeat match goal with
    | |- context [lift ?c] => destruct c; cbn
    | |- context [onAddPolicy P ?v] => destruct (onAddPolicy P v); cbn
    | |- context [onClose P] => destruct (onClose P); cbn
    | |- context [if truthy ?v then _ else _] => destruct (truthy v); cbn
    end.

(** The run of the policy handler on dates that convert: the payload is
    logged and sent, and the handler waits. *)
Lemma PolicyForm_onSubmit_dispatch data v startDate endDate :
  toISOString E (newDate E (field data "startDate")) = Normal startDate ->
  toISOString E (newDate E (field data "endDate")) = Normal endDate ->
  effects (run P (PolicyForm.onSubmit E data) v)
  = effects v ++ [SetIsSubmitting true;
                  ConsoleLog [JStr (js "Submitting policy to backend:");
                              PolicyForm.newPolicy data startDate endDate];
                  AddPolicy (PolicyForm.newPolicy data startDate endDate)].
Proof.
  intros Hstart Hend. unfold PolicyForm.onSubmit. cbn. rewrite Hstart. cbn.
  rewrite Hend. cbn. by rewrite <- !app_assoc.
Qed.

(** What the policy handler does once its remote call has settled. *)
Lemma PolicyForm_onSubmit_pending data v k :
  pending (run P (PolicyForm.onSubmit E data) v) = pending v ++ [k] ->
  forall error w,
    run P (k (Abrupt error)) w
    = match getMessage E error with
      | Normal message =>
          apply (SetIsSubmitting false)
            (apply (ConsoleError [JStr (js "Policy add error:"); error])
               (apply (ToastError
                         (or_else message
                            (JStr (js "Failed to add policy. Please try again.")))) w))
      | Abrupt _ => apply (SetIsSubmitting false) w
      end.
Proof.
  unfold PolicyForm.onSubmit. run_cases.
  all: intros Hpending; try (apply (f_equal length) in Hpending;
                             rewrite length_app in Hpending; simpl in Hpending; lia).
  apply app_inv_head in Hpending. injection Hpending as <-.
  intros error w. cbn. by destruct (getMessage E error).
Qed.


End DispatchFacts.

(** C2. The schema of the policy form accepts the nominees input "0.5",
    which parses to a number below 1: the refinement compares with 0,
    not with 1. *)
Theorem nominees_below_one_accepted :
  forall emailRegex : JS.jsstring -> bool,
    Spec.accepts emailRegex PolicyForm.formSchema "nominees" (JS.js "0.5") = true
    /\ JS.gt (JS.num 1) (JS.StringToNumber (JS.js "0.5")) = true.
Proof. intros emailRegex. split; by vm_compute. Qed.

Example nominees_five_accepted emailRegex :
  Spec.accepts emailRegex PolicyForm.formSchema "nominees" (JS.js "5") = true.
Proof. by vm_compute. Qed.

Example nominees_six_rejected emailRegex :
  Spec.accepts emailRegex PolicyForm.formSchema "nominees" (JS.js "6") = false.
Proof. by vm_compute. Qed.

(** The nominees input is accepted exactly when it converts to a number
    that is not NaN, is greater than 0 and is at most 5. *)
Lemma nominees_accepted_iff emailRegex (s : JS.jsstring) :
  Spec.accepts emailRegex PolicyForm.formSchema "nominees" s = true
  <-> JS.isNaN (JS.StringToNumber s) = false
      /\ JS.gt (JS.StringToNumber s) (JS.num 0) = true
      /\ JS.le (JS.StringToNumber s) (JS.num 5) = true.
Proof.
  unfold Spec.accepts. cbn.
  destruct (JS.isNaN (JS.StringToNumber s)),
           (JS.gt (JS.StringToNumber s) (JS.num 0)),
           (JS.le (JS.StringToNumber s) (JS.num 5));
    cbn; split; try done; intros (? & ? & ?); done.
Qed.

(** C3, as the code has it. The schema of the policy form accepts a
    start date, and an end date, exactly when it is not empty; whether
    it is a date is not looked at. *)
Theorem dates_accepted_iff_nonempty :
  forall (emailRegex : JS.jsstring -> bool) (s : JS.jsstring),
    (Spec.accepts emailRegex PolicyForm.formSchema "startDate" s = true <-> s <> [])
    /\ (Spec.accepts emailRegex PolicyForm.formSchema "endDate" s = true <-> s <> []).
Proof.
  intros emailRegex s. unfold Spec.accepts. cbn. by destruct s.
Qed.

(** C3, the counterexample: "2024-13-45" is not empty and is no date for
    any engine, and the schema accepts it as a start date. *)
Lemma unparseable_date_passes_validation :
  Spec.accepts Sample.emailRegex PolicyForm.formSchema "startDate" (JS.js "2024-13-45") = true
  /\ JS.js "2024-13-45" <> []
  /\ forall E : JS.Engine, JS.newDate E (JS.JStr (JS.js "2024-13-45")) = None.
Proof. repeat split; by vm_compute. Qed.

Section SubmissionFacts.
Import JS Zod Async Form Spec.

Variable E : Engine.
Variable P : Props.
Variable emailRegex : jsstring -> bool.

Lemma step_Submit_valid C v data :
  isSubmitting v = false ->
  zodResolver emailRegex (schema C) (values v) = Valid data ->
  step P emailRegex C v Submit = run P (onSubmit C data) (set_errors ∅ v).
Proof. intros Hflag Hvalid. simpl. unfold handleSubmit. by rewrite Hflag, Hvalid. Qed.


(** A login that is sent and resolves with a falsy value, step by step. *)
Lemma Login_not_successful v values success :
  idle v ->
  zodResolver emailRegex Login.formSchema (Form.values v) = Valid values ->
  truthy success = false ->
  steps P emailRegex (Login.component E) [Submit; Settle 0 (Normal success)] v
  = apply (SetIsSubmitting false)
      (apply (LoginWith (Login.credentials values))
         (apply (SetError (JStr []))
            (apply (SetIsSubmitting true) (set_errors ∅ v)))).
Proof.
  intros [Hflag Hpending] Hvalid Hfalsy.
  unfold steps. cbn [fold_left]. rewrite (step_Submit_valid _ _ values) by done.
  cbn [Login.component onSubmit]. unfold Login.onSubmit. cbn.
  rewrite Hpending. cbn. rewrite Hfalsy. cbn.
  unfold apply, set_pending, set_errors. cbn. by rewrite Hpending.
Qed.

(** A login that is sent and then rejected, step by step. *)
Lemma Login_rejected v values err message :
  idle v ->
  zodResolver emailRegex Login.formSchema (Form.values v) = Valid values ->
  getMessage E err = Normal message ->
  steps P emailRegex (Login.component E) [Submit; Settle 0 (Abrupt err)] v
  = apply (SetIsSubmitting false)
      (apply (SetError (or_else message (JStr (js "Invalid email or password"))))
         (apply (ConsoleError [JStr (js "Login error:"); err])
            (apply (LoginWith (Login.credentials values))
               (apply (SetError (JStr []))
                  (apply (SetIsSubmitting true) (set_errors ∅ v)))))).
Proof.
  intros [Hflag Hpending] Hvalid Hmessage.
  unfold steps. cbn [fold_left]. rewrite (step_Submit_valid _ _ values) by done.
  cbn [Login.component onSubmit]. unfold Login.onSubmit. cbn.
  rewrite Hpending. cbn. rewrite Hmessage. cbn.
  unfold apply, set_pending, set_errors. cbn. by rewrite Hpending.
Qed.

End SubmissionFacts.



Example negative_value_message :
  exists errs,
    Zod.zodResolver Sample.emailRegex PolicyForm.formSchema
      (<["value"%string := JS.js "-5"]> Sample.policy) = Zod.Invalid errs
    /\ errs = {[ "value"%string := JS.js "Value must be a positive number" ]}.
Proof. eexists. split; [by vm_compute|]. by apply (bool_decide_unpack _). Qed.


Example submitted_login_is_in_flight :
  let C := Login.component Sample.engine in
  let v := Form.steps Sample.props Sample.emailRegex C
             [Form.Change "email" (JS.js "user@example.com");
              Form.Change "password" (JS.js "secret"); Form.Submit] (Form.mount C) in
  Form.isSubmitting v = true /\ length (Form.pending v) = 1%nat
  /\ Form.remoteCalls v = [Async.LoginWith (Login.credentials Sample.account)].
Proof. by vm_compute. Qed.

(** C4, as the code has it. A submit trigger on an idle policy form
    whose values pass validation and whose dates convert sends one
    payload: the name and the company as typed, the value and the
    premium as numbers, the two dates as ISO 8601 timestamps, and the
    status "Active". *)
Theorem dispatched_policy_draft :
  forall (E : JS.Engine) (P : Form.Props) (emailRegex : JS.jsstring -> bool)
         (v : Form.View) (data : gmap string JS.jsstring),
    Form.idle v ->
    Zod.zodResolver emailRegex PolicyForm.formSchema (Form.values v) = Zod.Valid data ->
    exists name company value premium startDate endDate,
      Form.values v !! "name"%string = Some name
      /\ Form.values v !! "company"%string = Some company
      /\ Form.values v !! "value"%string = Some value
      /\ Form.values v !! "premium"%string = Some premium
      /\ Form.values v !! "startDate"%string = Some startDate
      /\ Form.values v !! "endDate"%string = Some endDate
      /\ forall startISO endISO,
           JS.toISOString E (JS.Date_parse E startDate) = JS.Normal startISO ->
           JS.toISOString E (JS.Date_parse E endDate) = JS.Normal endISO ->
           Form.remoteCalls (Form.step P emailRegex (PolicyForm.component E) v Form.Submit)
           = Form.remoteCalls v
               ++ [Async.AddPolicy
                     (JS.JObj [("name"%string, JS.JStr name);
                               ("company"%string, JS.JStr company);
                               ("value"%string, JS.JNum (JS.StringToNumber value));
                               ("premium"%string, JS.JNum (JS.StringToNumber premium));
                               ("startDate"%string, JS.JStr startISO);
                               ("endDate"%string, JS.JStr endISO);
                               ("status"%string, JS.JStr (JS.js "Active"))])].
Proof.
  intros E P emailRegex v data [Hflag Hpending] Hvalid.
  destruct (PolicyForm_valid _ _ _ Hvalid)
    as (name & company & value & premium & startDate & endDate & nominees
        & [? Hname] & [? Hcompany] & [? Hvalue] & [? Hpremium]
        & [? HstartDate] & [? HendDate] & _).
  exists name, company, value, premium, startDate, endDate.
  repeat (split; [done|]). intros startISO endISO Hstart Hend.
  rewrite (step_Submit_valid _ _ _ _ data) by done.
  unfold Form.remoteCalls. cbn [PolicyForm.component Form.onSubmit].
  rewrite (PolicyForm_onSubmit_dispatch _ _ _ _ startISO endISO);
    rewrite ?(field_lookup _ _ _ HstartDate), ?(field_lookup _ _ _ HendDate); [|done..].
  rewrite List.filter_app. unfold PolicyForm.newPolicy.
  by rewrite (field_lookup _ _ _ Hname), (field_lookup _ _ _ Hcompany),
    (field_lookup _ _ _ Hvalue), (field_lookup _ _ _ Hpremium).
Qed.

(** C4 at the sample policy. *)
Lemma dispatched_policy_draft_witness :
  exists name company value premium startDate endDate,
    Form.values Sample.policyView !! "name"%string = Some name
    /\ Form.values Sample.policyView !! "company"%string = Some company
    /\ Form.values Sample.policyView !! "value"%string = Some value
    /\ Form.values Sample.policyView !! "premium"%string = Some premium
    /\ Form.values Sample.policyView !! "startDate"%string = Some startDate
    /\ Form.values Sample.policyView !! "endDate"%string = Some endDate
    /\ forall startISO endISO,
         JS.toISOString Sample.engine (JS.Date_parse Sample.engine startDate)
         = JS.Normal startISO ->
         JS.toISOString Sample.engine (JS.Date_parse Sample.engine endDate)
         = JS.Normal endISO ->
         Form.remoteCalls
           (Form.step Sample.props Sample.emailRegex (PolicyForm.component Sample.engine)
              Sample.policyView Form.Submit)
         = Form.remoteCalls Sample.policyView
             ++ [Async.AddPolicy
                   (JS.JObj [("name"%string, JS.JStr name);
                             ("company"%string, JS.JStr company);
                             ("value"%string, JS.JNum (JS.StringToNumber value));
                             ("premium"%string, JS.JNum (JS.StringToNumber premium));
                             ("startDate"%string, JS.JStr startISO);
                             ("endDate"%string, JS.JStr endISO);
                             ("status"%string, JS.JStr (JS.js "Active"))])].
Proof.
  apply (dispatched_policy_draft Sample.engine Sample.props Sample.emailRegex
           Sample.policyView Sample.policy).
  - by vm_compute.
  - by vm_compute.
Defined.

(** C4, the counterexample: the payload sent for the sample policy has
    seven fields and none of them is the nominee count; and a policy
    that passes validation with a start date that is no date is not
    sent at all. *)
Lemma policy_draft_without_nominee_count :
  (exists payload,
     Form.remoteCalls
       (Form.step Sample.props Sample.emailRegex (PolicyForm.component Sample.engine)
          Sample.policyView Form.Submit) = [Async.AddPolicy payload]
     /\ JS.keys payload
        = ["name"; "company"; "value"; "premium"; "startDate"; "endDate"; "status"]%string
     /\ Spec.prop "nominees" payload = None)
  /\ (let values := <["startDate"%string := JS.js "2024-13-45"]> Sample.policy in
      (exists data,
         Zod.zodResolver Sample.emailRegex PolicyForm.formSchema values = Zod.Valid data)
      /\ Form.remoteCalls
           (Form.step Sample.props Sample.emailRegex (PolicyForm.component Sample.engine)
              (Sample.view (PolicyForm.component Sample.engine) values) Form.Submit) = []).
Proof.
  split.
  - eexists. split; [by vm_compute|]. by vm_compute.
  - split; [eexists|]; by vm_compute.
Qed.

(** C5, as the code has it. The value and the premium of a payload built
    from values that passed validation are numbers that are not NaN and
    are greater than zero. *)
Theorem dispatched_numbers_are_positive :
  forall (emailRegex : JS.jsstring -> bool) (values data : gmap string JS.jsstring)
         (startDate endDate : JS.jsstring),
    Zod.zodResolver emailRegex PolicyForm.formSchema values = Zod.Valid data ->
    exists x y,
      Spec.prop "value" (PolicyForm.newPolicy data startDate endDate) = Some (JS.JNum x)
      /\ Spec.prop "premium" (PolicyForm.newPolicy data startDate endDate) = Some (JS.JNum y)
      /\ JS.isNaN x = false /\ Spec.positive x
      /\ JS.isNaN y = false /\ Spec.positive y.
Proof.
  intros emailRegex values data startDate endDate Hvalid.
  destruct (PolicyForm_valid _ _ _ Hvalid)
    as (name & company & value & premium & start & end_ & nominees
        & _ & _ & [_ Hvalue] & [_ Hpremium] & _ & _ & _ & _ & _
        & [Hx Hxpos] & [Hy Hypos] & _).
  exists (JS.StringToNumber value), (JS.StringToNumber premium).
  cbn. rewrite (field_lookup _ _ _ Hvalue), (field_lookup _ _ _ Hpremium). cbn.
  repeat split; try done; by apply gt_zero_positive.
Qed.

(** C5 at the sample policy. *)
Lemma dispatched_numbers_are_positive_witness :
  exists x y,
    Spec.prop "value" (PolicyForm.newPolicy Sample.policy [] []) = Some (JS.JNum x)
    /\ Spec.prop "premium" (PolicyForm.newPolicy Sample.policy [] []) = Some (JS.JNum y)
    /\ JS.isNaN x = false /\ Spec.positive x
    /\ JS.isNaN y = false /\ Spec.positive y.
Proof.
  apply (dispatched_numbers_are_positive Sample.emailRegex Sample.policy Sample.policy).
  by vm_compute.
Defined.

(** C5, the counterexample: with the value "Infinity" the sample policy
    passes validation and is sent with a value that is not finite. *)
Lemma infinite_value_is_dispatched :
  let values := <["value"%string := JS.js "Infinity"]> Sample.policy in
  exists data payload,
    Zod.zodResolver Sample.emailRegex PolicyForm.formSchema values = Zod.Valid data
    /\ Form.remoteCalls
         (Form.step Sample.props Sample.emailRegex (PolicyForm.component Sample.engine)
            (Sample.view (PolicyForm.component Sample.engine) values) Form.Submit)
       = [Async.AddPolicy payload]
    /\ Spec.prop "value" payload = Some (JS.JNum JS.Infinity)
    /\ JS.number_isFinite JS.Infinity = false.
Proof. do 2 eexists. split; [by vm_compute|]. split; [by vm_compute|]. by vm_compute. Qed.



Example duplicate_policy_is_shown :
  Form.effects
    (Form.steps Sample.props Sample.emailRegex (PolicyForm.component Sample.engine)
       [Form.Submit; Form.Settle 0 (JS.Abrupt Sample.duplicatePolicy)]
       Sample.policyView)
  = [Async.SetIsSubmitting true;
     Async.ConsoleLog [JS.JStr (JS.js "Submitting policy to backend:");
                       PolicyForm.newPolicy Sample.policy
                         (JS.js "2024-01-01T00:00:00.000Z") (JS.js "2025-01-01T00:00:00.000Z")];
     Async.AddPolicy (PolicyForm.newPolicy Sample.policy
                        (JS.js "2024-01-01T00:00:00.000Z") (JS.js "2025-01-01T00:00:00.000Z"));
     Async.ToastError (JS.JStr (JS.js "duplicate policy"));
     Async.ConsoleError [JS.JStr (JS.js "Policy add error:"); Sample.duplicatePolicy];
     Async.SetIsSubmitting false].
Proof. by vm_compute. Qed.

(** A rejection with [undefined] has no message to read: the [catch]
    block throws in its turn, nothing is shown, and the [finally] block
    still takes the flag down. *)
Example rejection_with_undefined :
  let v' := Form.steps Sample.props Sample.emailRegex (PolicyForm.component Sample.engine)
              [Form.Submit; Form.Settle 0 (JS.Abrupt JS.JUndefined)] Sample.policyView in
  Form.effects v'
  = [Async.SetIsSubmitting true;
     Async.ConsoleLog [JS.JStr (JS.js "Submitting policy to backend:");
                       PolicyForm.newPolicy Sample.policy
                         (JS.js "2024-01-01T00:00:00.000Z") (JS.js "2025-01-01T00:00:00.000Z")];
     Async.AddPolicy (PolicyForm.newPolicy Sample.policy
                        (JS.js "2024-01-01T00:00:00.000Z") (JS.js "2025-01-01T00:00:00.000Z"));
     Async.SetIsSubmitting false]
  /\ Form.isSubmitting v' = false.
Proof. by vm_compute. Qed.

(** C10. A submit trigger on an idle login form whose values pass
    validation, followed by the resolution of the login call with a
    falsy value: after the call the handler does nothing but take
    [isSubmitting] down; it does not navigate, the error message stays
    the empty one set when the handler started, and the form is idle
    again. *)
Theorem unsuccessful_login_is_silent :
  forall (E : JS.Engine) (P : Form.Props) (emailRegex : JS.jsstring -> bool)
         (v : Form.View) (values : gmap string JS.jsstring) (success : JS.jsval),
    Form.idle v ->
    Zod.zodResolver emailRegex Login.formSchema (Form.values v) = Zod.Valid values ->
    JS.truthy success = false ->
    let v' := Form.steps P emailRegex (Login.component E)
                [Form.Submit; Form.Settle 0 (JS.Normal success)] v in
    Form.effects v'
    = Form.effects v
        ++ [Async.SetIsSubmitting true; Async.SetError (JS.JStr []);
            Async.LoginWith (Login.credentials values); Async.SetIsSubmitting false]
    /\ Form.error v' = JS.JStr []
    /\ Form.values v' = Form.values v
    /\ Form.idle v'.
Proof.
  intros E P emailRegex v values success Hidle Hvalid Hfalsy v'. unfold v'.
  rewrite (Login_not_successful E P emailRegex v values success) by done.
  destruct Hidle as [Hflag Hpending]. cbn. by rewrite <- !app_assoc.
Qed.

(** C10 at the sample account, the login resolving with [false]. *)
Lemma unsuccessful_login_is_silent_witness :
  let v' := Form.steps Sample.props Sample.emailRegex (Login.component Sample.engine)
              [Form.Submit; Form.Settle 0 (JS.Normal (JS.JBool false))] Sample.loginView in
  Form.effects v'
  = Form.effects Sample.loginView
      ++ [Async.SetIsSubmitting true; Async.SetError (JS.JStr []);
          Async.LoginWith (Login.credentials Sample.account); Async.SetIsSubmitting false]
  /\ Form.error v' = JS.JStr []
  /\ Form.values v' = Form.values Sample.loginView
  /\ Form.idle v'.
Proof.
  apply (unsuccessful_login_is_silent Sample.engine Sample.props Sample.emailRegex
           Sample.loginView Sample.account (JS.JBool false)).
  - by vm_compute.
  - by vm_compute.
  - by vm_compute.
Defined.

(** ** Dates: from the date input to the timestamp *)

Section CalendarFacts.
Import JS Calendar.

(** Checked for every date of one era of 400 years. *)
Lemma eraChecked_true : allBelow 400 (fun i => yearChecked (Z.of_nat i)) = true.
Proof. by vm_compute. Qed.

Lemma allBelow_spec n p : allBelow n p = true -> forall k, (k < n)%nat -> p k = true.
Proof.
  induction n as [|n IH]; simpl; [lia|].
  intros [Hn Hrest]%andb_true_iff k Hk.
  destruct (decide (k = n)) as [->|Hne]; [done|]. apply IH; [done|lia].
Qed.

Lemma yearChecked_true i : (i < 400)%nat -> yearChecked (Z.of_nat i) = true.
Proof. exact (allBelow_spec 400 (fun i => yearChecked (Z.of_nat i)) eraChecked_true i). Qed.

Lemma monthChecked_true i j :
  (i < 400)%nat -> (j < 12)%nat -> monthChecked (Z.of_nat i) (1 + Z.of_nat j) = true.
Proof.
  intros Hi Hj.
  exact (allBelow_spec 12 (fun j => monthChecked (Z.of_nat i) (1 + Z.of_nat j))
           (yearChecked_true i Hi) j Hj).
Qed.

Lemma dayChecked_nat i j k :
  (i < 400)%nat -> (j < 12)%nat -> (k < 31)%nat ->
  dayChecked (Z.of_nat i) (1 + Z.of_nat j) (1 + Z.of_nat k) = true.
Proof.
  intros Hi Hj Hk.
  exact (allBelow_spec 31 (fun k => dayChecked (Z.of_nat i) (1 + Z.of_nat j) (1 + Z.of_nat k))
           (monthChecked_true i j Hi Hj) k Hk).
Qed.

Lemma dayChecked_true yoe m d :
  0 <= yoe < 400 -> 1 <= m <= 12 -> 1 <= d <= 31 -> dayChecked yoe m d = true.
Proof.
  intros Hyoe Hm Hd.
  pose proof (dayChecked_nat (Z.to_nat yoe) (Z.to_nat (m - 1)) (Z.to_nat (d - 1))
                ltac:(lia) ltac:(lia) ltac:(lia)) as H3.
  rewrite !Z2Nat.id in H3 by lia.
  replace (1 + (m - 1)) with m in H3 by lia.
  by replace (1 + (d - 1)) with d in H3 by lia.
Qed.

Lemma isLeapYear_period y k : isLeapYear (y + k * 400) = isLeapYear y.
Proof.
  unfold isLeapYear.
  replace ((y + k * 400) mod 4) with (y mod 4)
    by (replace (k * 400) with (k * 100 * 4) by lia; by rewrite Z.mod_add).
  replace ((y + k * 400) mod 100) with (y mod 100)
    by (replace (k * 400) with (k * 4 * 100) by lia; by rewrite Z.mod_add).
  by rewrite Z.mod_add.
Qed.

Lemma daysInMonth_period y k m : daysInMonth (y + k * 400) m = daysInMonth y m.
Proof. unfold daysInMonth. by rewrite isLeapYear_period. Qed.

Lemma daysInMonth_bounds y m : 28 <= daysInMonth y m <= 31.
Proof.
  unfold daysInMonth.
  repeat match goal with |- context [if ?b then _ else _] => destruct b end; lia.
Qed.

Lemma era_checked yoe m d :
  0 <= yoe < 400 -> 1 <= m <= 12 ->
  1 <= d <= daysInMonth (if m <=? 2 then yoe + 1 else yoe) m ->
  0 <= doeOf yoe m d < 146097 /\ civilOfDoe (doeOf yoe m d) = (yoe, m, d).
Proof.
  intros Hyoe Hm Hd.
  pose proof (daysInMonth_bounds (if m <=? 2 then yoe + 1 else yoe) m) as Hdim.
  pose proof (dayChecked_true yoe m d Hyoe Hm ltac:(lia)) as H3.
  unfold dayChecked in H3.
  apply orb_true_iff in H3 as [H3|H3].
  - apply negb_true_iff, Z.leb_gt in H3. lia.
  - apply andb_true_iff in H3 as [[Hlo%Z.leb_le Hhi%Z.ltb_lt]%andb_true_iff H3].
    split; [lia|]. destruct (civilOfDoe (doeOf yoe m d)) as [[yoe' m'] d'].
    apply andb_true_iff in H3 as [[?%Z.eqb_eq ?%Z.eqb_eq]%andb_true_iff ?%Z.eqb_eq].
    congruence.
Qed.

Lemma daysFromCivil_era y m d :
  let y' := if m <=? 2 then y - 1 else y in
  daysFromCivil y m d = (y' / 400) * 146097 + doeOf (y' mod 400) m d - 719468.
Proof.
  unfold daysFromCivil, doeOf. cbv zeta.
  set (y' := if m <=? 2 then y - 1 else y).
  replace (y' - y' / 400 * 400) with (y' mod 400) by (rewrite Z.mod_eq; lia).
  lia.
Qed.

Lemma civilFromDays_era era doe :
  0 <= doe < 146097 ->
  civilFromDays (era * 146097 + doe - 719468)
  = match civilOfDoe doe with
    | (yoe, m, d) => ((if m <=? 2 then yoe + era * 400 + 1 else yoe + era * 400), m, d)
    end.
Proof.
  intros Hdoe. unfold civilFromDays, civilOfDoe. cbv zeta.
  replace (era * 146097 + doe - 719468 + 719468) with (doe + era * 146097) by lia.
  rewrite Z.div_add by lia. rewrite (Z.div_small doe) by lia.
  replace (doe + era * 146097 - (0 + era) * 146097) with doe by lia.
  reflexivity.
Qed.

Lemma civil_round_trip y m d :
  1 <= m <= 12 -> 1 <= d <= daysInMonth y m ->
  civilFromDays (daysFromCivil y m d) = (y, m, d).
Proof.
  intros Hm Hd. rewrite daysFromCivil_era. cbv zeta.
  set (y' := if m <=? 2 then y - 1 else y).
  pose proof (Z.mod_pos_bound y' 400 ltac:(lia)) as Hyoe.
  assert (y = (if m <=? 2 then y' mod 400 + 1 else y' mod 400) + (y' / 400) * 400) as Hy.
  { pose proof (Z.div_mod y' 400 ltac:(lia)). unfold y' in *. destruct (m <=? 2); lia. }
  destruct (era_checked (y' mod 400) m d) as [Hdoe Hcivil]; [done..| |].
  { rewrite Hy, daysInMonth_period in Hd. done. }
  rewrite civilFromDays_era by done. rewrite Hcivil.
  f_equal. f_equal. destruct (m <=? 2); lia.
Qed.

Lemma digitIn_decimal c d : digitIn 10 c = Some d -> c = digitChar d /\ 0 <= d < 10.
Proof.
  unfold digitIn, digitValue, digitChar.
  repeat match goal with
    | |- context [if ?b then _ else _] => destruct b eqn:?
    end; intros [= <-]; try discriminate;
    repeat match goal with
      | H : (_ && _)%bool = true |- _ => apply andb_true_iff in H as [? ?]
      | H : (_ <=? _)%N = true |- _ => apply N.leb_le in H
      | H : (_ <? _) = true |- _ => apply Z.ltb_lt in H
      | H : (_ <? _) = false |- _ => apply Z.ltb_ge in H
      end; lia.
Qed.

Lemma spanDigits_all s ds :
  spanDigits 10 s = (ds, []) -> s = map digitChar ds /\ Forall (fun d => 0 <= d < 10) ds.
Proof.
  revert ds. induction s as [|c s IH]; intros ds; simpl.
  - by intros [= <-].
  - destruct (digitIn 10 c) as [d|] eqn:Hc; [|by intros [= <- ?]].
    destruct (spanDigits 10 s) as [ds' r]. intros [= <- ->].
    destruct (digitIn_decimal _ _ Hc) as [-> Hd]. destruct (IH ds' eq_refl) as [-> Hds].
    split; [done|]. by constructor.
Qed.

Lemma digitsValue_snoc ds d : digitsValue 10 (ds ++ [d]) = digitsValue 10 ds * 10 + d.
Proof. unfold digitsValue. by rewrite fold_left_app. Qed.

Lemma digitsValue_bounds ds :
  Forall (fun d => 0 <= d < 10) ds -> 0 <= digitsValue 10 ds < 10 ^ Z.of_nat (length ds).
Proof.
  induction ds as [|d ds IH] using rev_ind; [by vm_compute|].
  intros [Hds Hd]%Forall_app. rewrite Forall_singleton in Hd.
  rewrite digitsValue_snoc, length_app. simpl length.
  replace (Z.of_nat (length ds + 1)) with (Z.succ (Z.of_nat (length ds))) by lia.
  rewrite Z.pow_succ_r by lia. specialize (IH Hds).
  generalize dependent (10 ^ Z.of_nat (length ds)). intros p Hp. lia.
Qed.

Lemma pad_digits ds :
  Forall (fun d => 0 <= d < 10) ds ->
  pad (length ds) (digitsValue 10 ds) = map digitChar ds.
Proof.
  induction ds as [|d ds IH] using rev_ind; [done|].
  intros [Hds Hd]%Forall_app. rewrite Forall_singleton in Hd.
  rewrite digitsValue_snoc, length_app, Nat.add_1_r, map_app. simpl.
  replace (digitsValue 10 ds * 10 + d) with (d + digitsValue 10 ds * 10) by lia.
  rewrite Z.div_add, Z.mod_add by lia. rewrite Z.div_small, Z.mod_small by lia.
  by rewrite Z.add_0_l, IH.
Qed.

(** A field of exactly [n] digits is the padded decimal of its value. *)
Lemma fixedDigits_pad n s v :
  fixedDigits n s = Some v -> s = pad n v /\ 0 <= v < 10 ^ Z.of_nat n.
Proof.
  unfold fixedDigits. destruct (spanDigits 10 s) as [ds r] eqn:Hspan.
  destruct r; [|done]. destruct (Nat.eqb (length ds) n) eqn:Hlen; [|done].
  apply Nat.eqb_eq in Hlen. intros [= <-]. subst n.
  destruct (spanDigits_all _ _ Hspan) as [-> Hds].
  split; [by rewrite pad_digits | by apply digitsValue_bounds].
Qed.

Lemma length_pad n v : length (pad n v) = n.
Proof. revert v. induction n as [|n IH]; intros v; simpl; [done|]. rewrite length_app, IH. simpl. lia. Qed.

Lemma daysFromCivil_bounds y m d :
  0 <= y <= 9999 -> 1 <= m <= 12 -> 1 <= d <= daysInMonth y m ->
  Z.abs (daysFromCivil y m d) <= 100000000.
Proof.
  intros Hy Hm Hd. rewrite daysFromCivil_era. cbv zeta.
  set (y' := if m <=? 2 then y - 1 else y).
  pose proof (Z.mod_pos_bound y' 400 ltac:(lia)) as Hyoe.
  pose proof (Z.div_mod y' 400 ltac:(lia)) as Hdiv.
  assert (-1 <= y' <= 9999) as Hy' by (unfold y'; destruct (m <=? 2); lia).
  destruct (era_checked (y' mod 400) m d) as [Hdoe _]; [done..| |].
  { replace y with ((if m <=? 2 then y' mod 400 + 1 else y' mod 400) + (y' / 400) * 400) in Hd
      by (unfold y' in *; destruct (m <=? 2); lia).
    by rewrite daysInMonth_period in Hd. }
  assert (-1 <= y' / 400 <= 24) by lia. lia.
Qed.

Lemma dateOnlyOf_Recognised y m d t :
  dateOnlyOf y m d = Recognised t ->
  1 <= m <= 12 /\ 1 <= d <= daysInMonth y m /\ t = daysFromCivil y m d * msPerDay.
Proof.
  unfold dateOnlyOf.
  destruct ((1 <=? m) && (m <=? 12) && (1 <=? d) && (d <=? 31)) eqn:Hrange; [|done].
  destruct (d <=? daysInMonth y m) eqn:Hday; [|done]. intros [= <-].
  apply andb_true_iff in Hrange as [[[?%Z.leb_le ?%Z.leb_le]%andb_true_iff ?%Z.leb_le]%andb_true_iff _].
  apply Z.leb_le in Hday. lia.
Qed.

(** The timestamp of a calendar date of the years 0 to 9999. *)
Lemma toISOString_date E y m d :
  0 <= y <= 9999 -> 1 <= m <= 12 -> 1 <= d <= daysInMonth y m ->
  toISOString E (TimeClip (daysFromCivil y m d * msPerDay))
  = Normal ((pad 4 y ++ 45%N :: pad 2 m ++ 45%N :: pad 2 d) ++ js "T00:00:00.000Z").
Proof.
  intros Hy Hm Hd. pose proof (daysFromCivil_bounds y m d Hy Hm Hd) as Hdays.
  unfold TimeClip. rewrite (proj2 (Z.leb_le _ _)) by (unfold msPerDay; lia).
  unfold toISOString. rewrite Z.div_mul, Z.mod_mul by done.
  rewrite civil_round_trip by done. unfold isoYear.
  rewrite (proj2 (andb_true_iff _ _)) by (split; apply Z.leb_le; lia).
  reflexivity.
Qed.

Lemma take_drop_cons {A} (s : list A) n x r : drop n s = x :: r -> s = take n s ++ x :: r.
Proof. intros <-. by rewrite take_drop. Qed.


Ltac not_hyphen H c :=
  destruct c as [|c]; [done|];
  do 6 (destruct c as [c|c|]; try (by cbv beta iota in H)).

(** X5. Whatever the engine, a date of the form YYYY-MM-DD that exists
    in the calendar, the form in which the date input hands over its
    value, is sent as the same date followed by T00:00:00.000Z: the
    conversion of [onSubmit] never moves a date to another day. *)
Theorem date_input_round_trip :
  forall (E : Engine) (s : jsstring) (t : Z),
    parseDateOnly s = Recognised t ->
    length s = 10%nat ->
    toISOString E (newDate E (JStr s)) = Normal (s ++ js "T00:00:00.000Z").
Proof.
  intros E s t.
  intros Hparse Hlen. change (newDate E (JStr s)) with (Date_parse E s).
  unfold Date_parse. rewrite Hparse.
  unfold parseDateOnly in Hparse.
  destruct (fixedDigits 4 (take 4 s)) as [y|] eqn:Hy; [|done].
  destruct (drop 4 s) as [|c r] eqn:Hdrop4.
  { apply (f_equal length) in Hdrop4. rewrite length_drop in Hdrop4. simpl in *. lia. }
  not_hyphen Hparse c.
  assert (length r = 5%nat) as Hr.
  { apply (f_equal length) in Hdrop4. rewrite length_drop in Hdrop4. simpl in *. lia. }
  destruct (fixedDigits 2 (take 2 r)) as [m|] eqn:Hm; [|done].
  destruct (drop 2 r) as [|c r'] eqn:Hdrop2.
  { apply (f_equal length) in Hdrop2. rewrite length_drop in Hdrop2. simpl in *. lia. }
  not_hyphen Hparse c.
  destruct (fixedDigits 2 r') as [d|] eqn:Hd; [|done].
  apply dateOnlyOf_Recognised in Hparse as (Hmonth & Hday & ->).
  apply fixedDigits_pad in Hy as [Hy Hybound], Hm as [Hm _], Hd as [-> _].
  rewrite (take_drop_cons s 4 _ _ Hdrop4), (take_drop_cons r 2 _ _ Hdrop2), Hy, Hm.
  apply toISOString_date; [|done..]. change (10 ^ Z.of_nat 4) with 10000 in Hybound. lia.
Qed.

End CalendarFacts.

(** ** The messages under the fields *)

Section FieldErrorFacts.
Import JS Zod Async Form Spec Page.

Variable emailRegex : jsstring -> bool.

Lemma fieldError_issues schema values key :
  fieldError emailRegex schema values key
  = parseErrorSchema (issuesOf emailRegex schema values) !! key.
Proof.
  unfold fieldError. rewrite zodResolver_unfold.
  by destruct (issuesOf emailRegex schema values).
Qed.

(** The error of a field is the first issue of its own schema on its own
    value. *)
Lemma fieldError_lookup schema values key t :
  NoDup schema.*1 -> (key, t) ∈ schema ->
  fieldError emailRegex schema values key = head (snd (parse emailRegex t (values !! key))).
Proof. intros Hnodup Hin. rewrite fieldError_issues. by apply errors_lookup. Qed.

Lemma fieldError_other schema values key :
  key ∉ schema.*1 -> fieldError emailRegex schema values key = None.
Proof. intros Hnotin. rewrite fieldError_issues. by apply errors_lookup_other. Qed.

Lemma fieldError_local schema values values' key :
  NoDup schema.*1 -> values !! key = values' !! key ->
  fieldError emailRegex schema values key = fieldError emailRegex schema values' key.
Proof.
  intros Hnodup Hkey. destruct (decide (key ∈ schema.*1)) as [Hin|Hnotin].
  - apply list_elem_of_fmap in Hin as [[key' t] [-> Hin]]. simpl in *.
    by rewrite !(fieldError_lookup _ _ _ t), Hkey.
  - by rewrite !fieldError_other.
Qed.

Ltac in_schema :=
  repeat first [ apply list_elem_of_here | apply list_elem_of_further ].

Lemma positive_iff_gt_zero x : positive x <-> isNaN x = false /\ gt x (num 0) = true.
Proof. destruct x as [[]|[]| |[] m e]; cbn; split; try done; by intros []. Qed.

Lemma StringToNumber_blank s : trim s = [] -> StringToNumber s = pos_zero.
Proof. unfold StringToNumber. by intros ->. Qed.

(** X1. For every mapping of values where the seven fields are strings,
    the message under each field of the policy form is the one the
    schema gives for it when its own rule fails, and none otherwise. *)
Theorem policy_field_messages :
  forall (values : gmap string jsstring)
         (name company value premium startDate endDate nominees : jsstring),
    values !! "name"%string = Some name ->
    values !! "company"%string = Some company ->
    values !! "value"%string = Some value ->
    values !! "premium"%string = Some premium ->
    values !! "startDate"%string = Some startDate ->
    values !! "endDate"%string = Some endDate ->
    values !! "nominees"%string = Some nominees ->
    let shown := fieldError emailRegex PolicyForm.formSchema values in
    shown "name"%string
    = (if (length name <? 3)%nat
       then Some (js "Policy name must be at least 3 characters") else None)
    /\ shown "company"%string
       = (if (length company <? 2)%nat
          then Some (js "Company name must be at least 2 characters") else None)
    /\ shown "value"%string
       = (if gt (StringToNumber value) (num 0)
          then None else Some (js "Value must be a positive number"))
    /\ shown "premium"%string
       = (if gt (StringToNumber premium) (num 0)
          then None else Some (js "Premium must be a positive number"))
    /\ shown "startDate"%string
       = (match startDate with [] => Some (js "Start date is required") | _ => None end)
    /\ shown "endDate"%string
       = (match endDate with [] => Some (js "End date is required") | _ => None end)
    /\ shown "nominees"%string
       = (if gt (StringToNumber nominees) (num 0) && le (StringToNumber nominees) (num 5)
          then None else Some (js "Nominees must be between 1 and 5")).
Proof.
  intros values name company value premium startDate endDate nominees
         Hname Hcompany Hvalue Hpremium HstartDate HendDate Hnominees shown.
  unfold shown. repeat split.
  all: erewrite fieldError_lookup;
    [ | exact PolicyForm_formSchema_NoDup | unfold PolicyForm.formSchema; in_schema ].
  all: rewrite ?Hname, ?Hcompany, ?Hvalue, ?Hpremium, ?HstartDate, ?HendDate, ?Hnominees; cbn.
  - by destruct (length name <=? 2)%nat.
  - by destruct (length company <=? 1)%nat.
  - destruct (StringToNumber value) as [[]|[]| |[] m e]; by cbn.
  - destruct (StringToNumber premium) as [[]|[]| |[] m e]; by cbn.
  - by destruct startDate.
  - by destruct endDate.
  - destruct (StringToNumber nominees) as [[]|[]| |[] m e]; cbn; try done;
      by destruct (le _ _).
Qed.

(** X2. For every mapping of values where the two fields are strings,
    the message under the email is shown exactly when the address fails
    the pattern of zod, and the message under the password exactly when
    it is empty. *)
Theorem login_field_messages :
  forall (values : gmap string jsstring) (email password : jsstring),
    values !! "email"%string = Some email ->
    values !! "password"%string = Some password ->
    let shown := fieldError emailRegex Login.formSchema values in
    shown "email"%string
    = (if emailRegex email then None else Some (js "Please enter a valid email address"))
    /\ shown "password"%string
       = (match password with [] => Some (js "Password is required") | _ => None end).
Proof.
  intros values email password Hemail Hpassword shown. unfold shown. split.
  all: erewrite fieldError_lookup;
    [ | exact Login_formSchema_NoDup | unfold Login.formSchema; in_schema ].
  all: rewrite ?Hemail, ?Hpassword; cbn.
  - by destruct (emailRegex email).
  - by destruct password.
Qed.

(** X3. In both forms the message under a field depends on the value of
    that field only: two mappings that agree on a field show the same
    message under it, whatever the other fields hold. *)
Theorem field_message_is_local :
  forall (values values' : gmap string jsstring) (key : string),
    values !! key = values' !! key ->
    fieldError emailRegex PolicyForm.formSchema values key
    = fieldError emailRegex PolicyForm.formSchema values' key
    /\ fieldError emailRegex Login.formSchema values key
       = fieldError emailRegex Login.formSchema values' key.
Proof.
  intros values values' key Hkey. split; apply fieldError_local; try done.
  - apply PolicyForm_formSchema_NoDup.
  - apply Login_formSchema_NoDup.
Qed.

(** X4. The value and the premium are accepted exactly when they convert
    to a number that is not NaN and is greater than zero, an infinite
    one included; the NaN test of the refinement never decides. An
    input that is empty or blank converts to zero and is rejected. *)
Theorem amount_accepted_iff_positive :
  forall s : jsstring,
    (accepts emailRegex PolicyForm.formSchema "value" s = true
     <-> positive (StringToNumber s))
    /\ (accepts emailRegex PolicyForm.formSchema "premium" s = true
        <-> positive (StringToNumber s))
    /\ (accepts emailRegex PolicyForm.formSchema "value" s
        = gt (StringToNumber s) (num 0))
    /\ (trim s = [] ->
        accepts emailRegex PolicyForm.formSchema "value" s = false
        /\ accepts emailRegex PolicyForm.formSchema "premium" s = false).
Proof.
  intros s. unfold accepts. cbn. split; [|split; [|split]].
  - destruct (StringToNumber s) as [[]|[]| |[] m e]; by cbn.
  - destruct (StringToNumber s) as [[]|[]| |[] m e]; by cbn.
  - destruct (StringToNumber s) as [[]|[]| |[] m e]; by cbn.
  - intros Hblank. by rewrite (StringToNumber_blank _ Hblank).
Qed.

End FieldErrorFacts.

(** ** The paths of the policy handler *)

Section PolicyPaths.
Import JS Zod Async Form Spec Page.

Variable E : Engine.
Variable P : Props.
Variable emailRegex : jsstring -> bool.

Lemma view_ext (a b : View) :
  values a = values b -> errors a = errors b -> isSubmitting a = isSubmitting b ->
  Form.error a = Form.error b -> pending a = pending b -> effects a = effects b ->
  a = b.
Proof. destruct a, b. simpl. by intros -> -> -> -> -> ->. Qed.

Ltac same_view Hpending :=
  apply view_ext; cbn; rewrite ?Hpending; reflexivity.

Lemma toISOString_valid t : exists iso, toISOString E (Some t) = Normal iso.
Proof. unfold toISOString. destruct (civilFromDays (t / msPerDay)) as [[y m] d]. by eexists. Qed.

(** The run of the policy handler when a date does not convert. *)
Lemma PolicyForm_onSubmit_invalid_date data v :
  newDate E (field data "startDate") = None \/ newDate E (field data "endDate") = None ->
  run P (PolicyForm.onSubmit E data) v
  = apply (SetIsSubmitting false)
      (apply (ConsoleError [JStr (js "Policy add error:"); RangeError (invalidTimeMessage E)])
         (apply (ToastError
                   (or_else (JStr (invalidTimeMessage E))
                      (JStr (js "Failed to add policy. Please try again."))))
            (apply (SetIsSubmitting true) v))).
Proof.
  intros Hdate. unfold PolicyForm.onSubmit. cbn.
  destruct (newDate E (field data "startDate")) as [t|] eqn:Hstart.
  - destruct Hdate as [?|Hend]; [done|]. destruct (toISOString_valid t) as [iso ->].
    cbn. by rewrite Hend.
  - reflexivity.
Qed.

(** A policy submission that is sent and then resolved, step by step, by
    what the callbacks of the parent do. *)
Lemma PolicyForm_resolved v data startDate endDate savedPolicy :
  idle v ->
  zodResolver emailRegex PolicyForm.formSchema (values v) = Valid data ->
  toISOString E (newDate E (field data "startDate")) = Normal startDate ->
  toISOString E (newDate E (field data "endDate")) = Normal endDate ->
  let sent :=
    apply (AddPolicy (PolicyForm.newPolicy data startDate endDate))
      (apply (ConsoleLog [JStr (js "Submitting policy to backend:");
                          PolicyForm.newPolicy data startDate endDate])
         (apply (SetIsSubmitting true) (set_errors ∅ v))) in
  let failed error w :=
    match getMessage E error with
    | Normal message =>
        apply (SetIsSubmitting false)
          (apply (ConsoleError [JStr (js "Policy add error:"); error])
             (apply (ToastError
                       (or_else message (JStr (js "Failed to add policy. Please try again."))))
                w))
    | Abrupt _ => apply (SetIsSubmitting false) w
    end in
  steps P emailRegex (PolicyForm.component E) [Submit; Settle 0 (Normal savedPolicy)] v
  = match onAddPolicy P savedPolicy with
    | Abrupt error => failed error (apply (OnAddPolicy savedPolicy) sent)
    | Normal _ =>
        let shown :=
          apply OnClose
            (apply (ToastSuccess (JStr (js "Policy added successfully")))
               (apply (OnAddPolicy savedPolicy) sent)) in
        match onClose P with
        | Abrupt error => failed error shown
        | Normal _ => apply (SetIsSubmitting false) shown
        end
    end.
Proof.
  intros [Hflag Hpending] Hvalid Hstart Hend sent failed.
  unfold steps. cbn [fold_left]. rewrite (step_Submit_valid _ _ _ _ data) by done.
  cbn [PolicyForm.component onSubmit]. unfold PolicyForm.onSubmit. cbn.
  rewrite Hstart. cbn. rewrite Hend. cbn. rewrite Hpending. cbn.
  unfold failed, sent.
  destruct (onAddPolicy P savedPolicy) as [r1|e1]; cbn.
  - destruct (onClose P) as [r2|e2]; cbn.
    + same_view Hpending.
    + destruct (getMessage E e2); cbn; same_view Hpending.
  - destruct (getMessage E e1); cbn; same_view Hpending.
Qed.

(** A policy submission that is sent and then rejected, whatever it is
    rejected with. *)
Lemma PolicyForm_rejected_any v data startDate endDate error :
  idle v ->
  zodResolver emailRegex PolicyForm.formSchema (values v) = Valid data ->
  toISOString E (newDate E (field data "startDate")) = Normal startDate ->
  toISOString E (newDate E (field data "endDate")) = Normal endDate ->
  exists shown,
    steps P emailRegex (PolicyForm.component E) [Submit; Settle 0 (Abrupt error)] v
    = {| values := values v; errors := ∅; isSubmitting := false; Form.error := Form.error v;
         pending := [];
         effects := effects v
                    ++ [SetIsSubmitting true;
                        ConsoleLog [JStr (js "Submitting policy to backend:");
                                    PolicyForm.newPolicy data startDate endDate];
                        AddPolicy (PolicyForm.newPolicy data startDate endDate)]
                    ++ shown ++ [SetIsSubmitting false] |}
    /\ List.filter isRemote shown = [].
Proof.
  intros [Hflag Hpending] Hvalid Hstart Hend.
  unfold steps. cbn [fold_left]. rewrite (step_Submit_valid _ _ _ _ data) by done.
  cbn [PolicyForm.component onSubmit]. unfold PolicyForm.onSubmit. cbn.
  rewrite Hstart. cbn. rewrite Hend. cbn. rewrite Hpending. cbn.
  destruct (getMessage E error) as [message|e]; cbn.
  - eexists [_; _].
    split; [apply view_ext; cbn; rewrite ?Hpending, <- ?app_assoc; reflexivity | reflexivity].
  - exists [].
    split; [apply view_ext; cbn; rewrite ?Hpending, <- ?app_assoc; reflexivity | reflexivity].
Qed.

End PolicyPaths.

(** X5 at the last day of February of a leap year. *)
Lemma date_input_round_trip_witness :
  JS.toISOString Sample.engine (JS.newDate Sample.engine (JS.JStr (JS.js "2024-02-29")))
  = JS.Normal (JS.js "2024-02-29" ++ JS.js "T00:00:00.000Z").
Proof.
  apply (date_input_round_trip Sample.engine (JS.js "2024-02-29") 1709164800000).
  - by vm_compute.
  - by vm_compute.
Defined.

(** X6. A submit trigger on an idle policy form whose values pass
    validation but whose start date or end date does not convert to a
    time: nothing is sent; the form shows one error notification, with
    the message of the engine's RangeError (the fallback text when that
    message is empty), and is idle again with its values as before. *)
Theorem unconvertible_date_is_not_sent :
  forall (E : JS.Engine) (P : Form.Props) (emailRegex : JS.jsstring -> bool)
         (v : Form.View) (data : gmap string JS.jsstring) (startDate endDate : JS.jsstring),
    Form.idle v ->
    Zod.zodResolver emailRegex PolicyForm.formSchema (Form.values v) = Zod.Valid data ->
    Form.values v !! "startDate"%string = Some startDate ->
    Form.values v !! "endDate"%string = Some endDate ->
    JS.Date_parse E startDate = None \/ JS.Date_parse E endDate = None ->
    let v' := Form.step P emailRegex (PolicyForm.component E) v Form.Submit in
    Form.effects v'
    = Form.effects v
        ++ [Async.SetIsSubmitting true;
            Async.ToastError
              (JS.or_else (JS.JStr (JS.invalidTimeMessage E))
                 (JS.JStr (JS.js "Failed to add policy. Please try again.")));
            Async.ConsoleError [JS.JStr (JS.js "Policy add error:");
                                JS.RangeError (JS.invalidTimeMessage E)];
            Async.SetIsSubmitting false]
    /\ Form.remoteCalls v' = Form.remoteCalls v
    /\ Form.values v' = Form.values v
    /\ Form.idle v'.
Proof.
  intros E P emailRegex v data startDate endDate [Hflag Hpending] Hvalid Hs He Hdate v'.
  assert (data !! "startDate"%string = Some startDate
          /\ data !! "endDate"%string = Some endDate) as [Hds Hde].
  { destruct (PolicyForm_valid _ _ _ Hvalid)
      as (? & ? & ? & ? & s & e & ? & _ & _ & _ & _ & [Hs' Hds] & [He' Hde] & _).
    split; congruence. }
  unfold v'. rewrite (step_Submit_valid _ _ _ _ data) by done.
  cbn [PolicyForm.component Form.onSubmit].
  rewrite PolicyForm_onSubmit_invalid_date
    by (rewrite (field_lookup _ _ _ Hds), (field_lookup _ _ _ Hde); exact Hdate).
  unfold Form.remoteCalls. cbn. rewrite <- !app_assoc, List.filter_app, app_nil_r.
  by repeat split.
Qed.

(** X6 at the sample policy with the start date "2024-13-45". *)
Lemma unconvertible_date_is_not_sent_witness :
  let values := <["startDate"%string := JS.js "2024-13-45"]> Sample.policy in
  let v := Sample.view (PolicyForm.component Sample.engine) values in
  let v' := Form.step Sample.props Sample.emailRegex (PolicyForm.component Sample.engine)
              v Form.Submit in
  Form.effects v'
  = Form.effects v
      ++ [Async.SetIsSubmitting true;
          Async.ToastError
            (JS.or_else (JS.JStr (JS.invalidTimeMessage Sample.engine))
               (JS.JStr (JS.js "Failed to add policy. Please try again.")));
          Async.ConsoleError [JS.JStr (JS.js "Policy add error:");
                              JS.RangeError (JS.invalidTimeMessage Sample.engine)];
          Async.SetIsSubmitting false]
  /\ Form.remoteCalls v' = Form.remoteCalls v
  /\ Form.values v' = Form.values v
  /\ Form.idle v'.
Proof.
  intros values v.
  apply (unconvertible_date_is_not_sent Sample.engine Sample.props Sample.emailRegex v
           values (JS.js "2024-13-45") (JS.js "2025-01-01")).
  - by vm_compute.
  - by vm_compute.
  - by vm_compute.
  - by vm_compute.
  - left. by vm_compute.
Defined.

(** X7. A policy submission that is sent and resolved, with callbacks of
    the parent that return: [onAddPolicy] is called with the very value
    the service resolved with, then the success notification is shown,
    then [onClose] is called, then the flag is taken down; no error
    notification is shown and the form is idle with its values as
    before. *)
Theorem resolved_policy_submission :
  forall (E : JS.Engine) (P : Form.Props) (emailRegex : JS.jsstring -> bool)
         (v : Form.View) (data : gmap string JS.jsstring)
         (startDate endDate : JS.jsstring) (savedPolicy r1 r2 : JS.jsval),
    Form.idle v ->
    Zod.zodResolver emailRegex PolicyForm.formSchema (Form.values v) = Zod.Valid data ->
    JS.toISOString E (JS.newDate E (Async.field data "startDate")) = JS.Normal startDate ->
    JS.toISOString E (JS.newDate E (Async.field data "endDate")) = JS.Normal endDate ->
    Form.onAddPolicy P savedPolicy = JS.Normal r1 ->
    Form.onClose P = JS.Normal r2 ->
    let v' := Form.steps P emailRegex (PolicyForm.component E)
                [Form.Submit; Form.Settle 0 (JS.Normal savedPolicy)] v in
    Form.effects v'
    = Form.effects v
        ++ [Async.SetIsSubmitting true;
            Async.ConsoleLog [JS.JStr (JS.js "Submitting policy to backend:");
                              PolicyForm.newPolicy data startDate endDate];
            Async.AddPolicy (PolicyForm.newPolicy data startDate endDate);
            Async.OnAddPolicy savedPolicy;
            Async.ToastSuccess (JS.JStr (JS.js "Policy added successfully"));
            Async.OnClose;
            Async.SetIsSubmitting false]
    /\ Form.values v' = Form.values v
    /\ Form.idle v'.
Proof.
  intros E P emailRegex v data startDate endDate savedPolicy r1 r2
         Hidle Hvalid Hstart Hend Hadd Hclose v'.
  unfold v'. rewrite (PolicyForm_resolved E P emailRegex v data startDate endDate) by done.
  rewrite Hadd. cbv zeta. rewrite Hclose. destruct Hidle as [Hflag Hpending].
  cbn. by rewrite <- !app_assoc.
Qed.

(** X7 at the sample policy. *)
Lemma resolved_policy_submission_witness :
  let startDate := JS.js "2024-01-01T00:00:00.000Z" in
  let endDate := JS.js "2025-01-01T00:00:00.000Z" in
  let v' := Form.steps Sample.props Sample.emailRegex (PolicyForm.component Sample.engine)
              [Form.Submit; Form.Settle 0 (JS.Normal Scenario.savedPolicy)]
              Sample.policyView in
  Form.effects v'
  = Form.effects Sample.policyView
      ++ [Async.SetIsSubmitting true;
          Async.ConsoleLog [JS.JStr (JS.js "Submitting policy to backend:");
                            PolicyForm.newPolicy Sample.policy startDate endDate];
          Async.AddPolicy (PolicyForm.newPolicy Sample.policy startDate endDate);
          Async.OnAddPolicy Scenario.savedPolicy;
          Async.ToastSuccess (JS.JStr (JS.js "Policy added successfully"));
          Async.OnClose;
          Async.SetIsSubmitting false]
  /\ Form.values v' = Form.values Sample.policyView
  /\ Form.idle v'.
Proof.
  apply (resolved_policy_submission Sample.engine Sample.props Sample.emailRegex
           Sample.policyView Sample.policy _ _ Scenario.savedPolicy JS.JUndefined JS.JUndefined).
  all: by vm_compute.
Defined.

(** X8. A policy submission that is sent and resolved, with an
    [onAddPolicy] that throws an error whose message can be read: the
    policy was saved by the service, yet the form shows the error
    notification with the message of the exception (or the fallback
    text), shows no success notification and does not call [onClose];
    the flag is taken down. *)
Theorem throwing_onAddPolicy_is_reported :
  forall (E : JS.Engine) (P : Form.Props) (emailRegex : JS.jsstring -> bool)
         (v : Form.View) (data : gmap string JS.jsstring)
         (startDate endDate : JS.jsstring) (savedPolicy error message : JS.jsval),
    Form.idle v ->
    Zod.zodResolver emailRegex PolicyForm.formSchema (Form.values v) = Zod.Valid data ->
    JS.toISOString E (JS.newDate E (Async.field data "startDate")) = JS.Normal startDate ->
    JS.toISOString E (JS.newDate E (Async.field data "endDate")) = JS.Normal endDate ->
    Form.onAddPolicy P savedPolicy = JS.Abrupt error ->
    JS.getMessage E error = JS.Normal message ->
    let v' := Form.steps P emailRegex (PolicyForm.component E)
                [Form.Submit; Form.Settle 0 (JS.Normal savedPolicy)] v in
    Form.effects v'
    = Form.effects v
        ++ [Async.SetIsSubmitting true;
            Async.ConsoleLog [JS.JStr (JS.js "Submitting policy to backend:");
                              PolicyForm.newPolicy data startDate endDate];
            Async.AddPolicy (PolicyForm.newPolicy data startDate endDate);
            Async.OnAddPolicy savedPolicy;
            Async.ToastError
              (JS.or_else message (JS.JStr (JS.js "Failed to add policy. Please try again.")));
            Async.ConsoleError [JS.JStr (JS.js "Policy add error:"); error];
            Async.SetIsSubmitting false]
    /\ Form.idle v'.
Proof.
  intros E P emailRegex v data startDate endDate savedPolicy error message
         Hidle Hvalid Hstart Hend Hadd Hmessage v'.
  unfold v'. rewrite (PolicyForm_resolved E P emailRegex v data startDate endDate) by done.
  rewrite Hadd, Hmessage. destruct Hidle as [Hflag Hpending].
  cbn. by rewrite <- !app_assoc.
Qed.

(** X8 at the sample policy, with a parent whose [onAddPolicy] throws. *)
Lemma throwing_onAddPolicy_is_reported_witness :
  let startDate := JS.js "2024-01-01T00:00:00.000Z" in
  let endDate := JS.js "2025-01-01T00:00:00.000Z" in
  let error := JS.JObj [("message"%string, JS.JStr (JS.js "state update failed"))] in
  let v' := Form.steps Scenario.addThrows Sample.emailRegex (PolicyForm.component Sample.engine)
              [Form.Submit; Form.Settle 0 (JS.Normal Scenario.savedPolicy)]
              Sample.policyView in
  Form.effects v'
  = Form.effects Sample.policyView
      ++ [Async.SetIsSubmitting true;
          Async.ConsoleLog [JS.JStr (JS.js "Submitting policy to backend:");
                            PolicyForm.newPolicy Sample.policy startDate endDate];
          Async.AddPolicy (PolicyForm.newPolicy Sample.policy startDate endDate);
          Async.OnAddPolicy Scenario.savedPolicy;
          Async.ToastError
            (JS.or_else (JS.JStr (JS.js "state update failed"))
               (JS.JStr (JS.js "Failed to add policy. Please try again.")));
          Async.ConsoleError [JS.JStr (JS.js "Policy add error:"); error];
          Async.SetIsSubmitting false]
  /\ Form.idle v'.
Proof.
  apply (throwing_onAddPolicy_is_reported Sample.engine Scenario.addThrows Sample.emailRegex
           Sample.policyView Sample.policy).
  all: by vm_compute.
Defined.

(** X9. A policy submission that is sent and resolved, with an
    [onAddPolicy] that returns and an [onClose] that throws an error
    whose message can be read: the success notification has been shown
    when the exception reaches the [catch] block, so the form shows the
    success notification and then the error notification; the flag is
    taken down. *)
Theorem throwing_onClose_shows_both :
  forall (E : JS.Engine) (P : Form.Props) (emailRegex : JS.jsstring -> bool)
         (v : Form.View) (data : gmap string JS.jsstring)
         (startDate endDate : JS.jsstring) (savedPolicy r1 error message : JS.jsval),
    Form.idle v ->
    Zod.zodResolver emailRegex PolicyForm.formSchema (Form.values v) = Zod.Valid data ->
    JS.toISOString E (JS.newDate E (Async.field data "startDate")) = JS.Normal startDate ->
    JS.toISOString E (JS.newDate E (Async.field data "endDate")) = JS.Normal endDate ->
    Form.onAddPolicy P savedPolicy = JS.Normal r1 ->
    Form.onClose P = JS.Abrupt error ->
    JS.getMessage E error = JS.Normal message ->
    let v' := Form.steps P emailRegex (PolicyForm.component E)
                [Form.Submit; Form.Settle 0 (JS.Normal savedPolicy)] v in
    Form.effects v'
    = Form.effects v
        ++ [Async.SetIsSubmitting true;
            Async.ConsoleLog [JS.JStr (JS.js "Submitting policy to backend:");
                              PolicyForm.newPolicy data startDate endDate];
            Async.AddPolicy (PolicyForm.newPolicy data startDate endDate);
            Async.OnAddPolicy savedPolicy;
            Async.ToastSuccess (JS.JStr (JS.js "Policy added successfully"));
            Async.OnClose;
            Async.ToastError
              (JS.or_else message (JS.JStr (JS.js "Failed to add policy. Please try again.")));
            Async.ConsoleError [JS.JStr (JS.js "Policy add error:"); error];
            Async.SetIsSubmitting false]
    /\ Form.idle v'.
Proof.
  intros E P emailRegex v data startDate endDate savedPolicy r1 error message
         Hidle Hvalid Hstart Hend Hadd Hclose Hmessage v'.
  unfold v'. rewrite (PolicyForm_resolved E P emailRegex v data startDate endDate) by done.
  rewrite Hadd. cbv zeta. rewrite Hclose, Hmessage. destruct Hidle as [Hflag Hpending].
  cbn. by rewrite <- !app_assoc.
Qed.

(** X9 at the sample policy, with a parent whose [onClose] throws. *)
Lemma throwing_onClose_shows_both_witness :
  let startDate := JS.js "2024-01-01T00:00:00.000Z" in
  let endDate := JS.js "2025-01-01T00:00:00.000Z" in
  let error := JS.JObj [("message"%string, JS.JStr (JS.js "cannot close"))] in
  let v' := Form.steps Scenario.closeThrows Sample.emailRegex
              (PolicyForm.component Sample.engine)
              [Form.Submit; Form.Settle 0 (JS.Normal Scenario.savedPolicy)]
              Sample.policyView in
  Form.effects v'
  = Form.effects Sample.policyView
      ++ [Async.SetIsSubmitting true;
          Async.ConsoleLog [JS.JStr (JS.js "Submitting policy to backend:");
                            PolicyForm.newPolicy Sample.policy startDate endDate];
          Async.AddPolicy (PolicyForm.newPolicy Sample.policy startDate endDate);
          Async.OnAddPolicy Scenario.savedPolicy;
          Async.ToastSuccess (JS.JStr (JS.js "Policy added successfully"));
          Async.OnClose;
          Async.ToastError
            (JS.or_else (JS.JStr (JS.js "cannot close"))
               (JS.JStr (JS.js "Failed to add policy. Please try again.")));
          Async.ConsoleError [JS.JStr (JS.js "Policy add error:"); error];
          Async.SetIsSubmitting false]
  /\ Form.idle v'.
Proof.
  apply (throwing_onClose_shows_both Sample.engine Scenario.closeThrows Sample.emailRegex
           Sample.policyView Sample.policy _ _ Scenario.savedPolicy JS.JUndefined).
  all: by vm_compute.
Defined.

(** X10. After a policy submission was rejected, whatever it was
    rejected with, a second submit trigger on the same values sends the
    same payload again: two calls of the service in all, with equal
    payloads. *)
Theorem retry_sends_the_same_payload :
  forall (E : JS.Engine) (P : Form.Props) (emailRegex : JS.jsstring -> bool)
         (v : Form.View) (data : gmap string JS.jsstring)
         (startDate endDate : JS.jsstring) (error : JS.jsval),
    Form.idle v ->
    Zod.zodResolver emailRegex PolicyForm.formSchema (Form.values v) = Zod.Valid data ->
    JS.toISOString E (JS.newDate E (Async.field data "startDate")) = JS.Normal startDate ->
    JS.toISOString E (JS.newDate E (Async.field data "endDate")) = JS.Normal endDate ->
    Form.remoteCalls
      (Form.steps P emailRegex (PolicyForm.component E)
         [Form.Submit; Form.Settle 0 (JS.Abrupt error); Form.Submit] v)
    = Form.remoteCalls v
        ++ [Async.AddPolicy (PolicyForm.newPolicy data startDate endDate);
            Async.AddPolicy (PolicyForm.newPolicy data startDate endDate)].
Proof.
  intros E P emailRegex v data startDate endDate error Hidle Hvalid Hstart Hend.
  destruct (PolicyForm_rejected_any E P emailRegex v data startDate endDate error
              Hidle Hvalid Hstart Hend) as (shown & Hsteps & Hshown).
  change (Form.steps P emailRegex (PolicyForm.component E)
            [Form.Submit; Form.Settle 0 (JS.Abrupt error); Form.Submit] v)
    with (Form.step P emailRegex (PolicyForm.component E)
            (Form.steps P emailRegex (PolicyForm.component E)
               [Form.Submit; Form.Settle 0 (JS.Abrupt error)] v) Form.Submit).
  rewrite Hsteps. rewrite (step_Submit_valid _ _ _ _ data) by done.
  unfold Form.remoteCalls. cbn [PolicyForm.component Form.onSubmit].
  rewrite (PolicyForm_onSubmit_dispatch _ _ _ _ startDate endDate) by done.
  cbn [Form.effects Form.set_errors]. rewrite !List.filter_app, Hshown. cbn.
  by rewrite <- !app_assoc.
Qed.

(** X10 at the sample policy. *)
Lemma retry_sends_the_same_payload_witness :
  let startDate := JS.js "2024-01-01T00:00:00.000Z" in
  let endDate := JS.js "2025-01-01T00:00:00.000Z" in
  Form.remoteCalls
    (Form.steps Sample.props Sample.emailRegex (PolicyForm.component Sample.engine)
       [Form.Submit; Form.Settle 0 (JS.Abrupt Sample.duplicatePolicy); Form.Submit]
       Sample.policyView)
  = Form.remoteCalls Sample.policyView
      ++ [Async.AddPolicy (PolicyForm.newPolicy Sample.policy startDate endDate);
          Async.AddPolicy (PolicyForm.newPolicy Sample.policy startDate endDate)].
Proof.
  apply (retry_sends_the_same_payload Sample.engine Sample.props Sample.emailRegex
           Sample.policyView Sample.policy).
  all: by vm_compute.
Defined.

(** ** The login handler, and the calls of both forms *)

Section LoginPaths.
Import JS Zod Async Form Spec Page.

Variable E : Engine.
Variable P : Props.
Variable emailRegex : jsstring -> bool.

Ltac in_schema :=
  repeat first [ apply list_elem_of_here | apply list_elem_of_further ].

(** The values that pass the schema of the login form. *)
Lemma Login_valid values data :
  zodResolver emailRegex Login.formSchema values = Valid data ->
  exists email password,
    (values !! "email"%string = Some email /\ data !! "email"%string = Some email)
    /\ (values !! "password"%string = Some password
        /\ data !! "password"%string = Some password)
    /\ emailRegex email = true /\ password <> [].
Proof.
  intros Hvalid. pose proof (zodResolver_Valid _ _ _ _ Hvalid) as Hfields.
  destruct (Hfields "email"%string (ZodString [check_email (js "Please enter a valid email address")]))
    as [Hemail Hdemail]; [unfold Login.formSchema; in_schema|].
  destruct (Hfields "password"%string (ZodString [check_min 1 (js "Password is required")]))
    as [Hpassword Hdpassword]; [unfold Login.formSchema; in_schema|].
  destruct (values !! "email"%string) as [email|] eqn:He; [|done].
  destruct (values !! "password"%string) as [password|] eqn:Hp; [|done].
  exists email, password. cbn in Hemail, Hpassword.
  rewrite andb_true_r in Hemail. repeat split; try done.
  intros ->. done.
Qed.

(** A login that is sent and resolves with a truthy value, step by
    step. *)
Lemma Login_successful v values success :
  idle v ->
  zodResolver emailRegex Login.formSchema (Form.values v) = Valid values ->
  truthy success = true ->
  steps P emailRegex (Login.component E) [Submit; Settle 0 (Normal success)] v
  = apply (SetIsSubmitting false)
      (apply (Navigate (js "/dashboard"))
         (apply (ConsoleLog [JStr (js "Login successful, navigating to dashboard")])
            (apply (LoginWith (Login.credentials values))
               (apply (SetError (JStr []))
                  (apply (SetIsSubmitting true) (set_errors ∅ v)))))).
Proof.
  intros [Hflag Hpending] Hvalid Htruthy.
  unfold steps. cbn [fold_left]. rewrite (step_Submit_valid _ _ _ _ values) by done.
  cbn [Login.component onSubmit]. unfold Login.onSubmit. cbn.
  rewrite Hpending. cbn. rewrite Htruthy. cbn.
  apply view_ext; cbn; rewrite ?Hpending; reflexivity.
Qed.

Lemma or_else_truthy message fallback :
  truthy fallback = true -> truthy (or_else message fallback) = true.
Proof. intros Hfallback. unfold or_else. by destruct (truthy message) eqn:Hm. Qed.

Ltac run_cases :=
  cbn;
  repeat match goal with
    | |- context [lift ?c] => destruct c; cbn
    | |- context [onAddPolicy P ?v] => destruct (onAddPolicy P v); cbn
    | |- context [onClose P] => destruct (onClose P); cbn
    | |- context [if truthy ?v then _ else _] => destruct (truthy v); cbn
    end.

Ltac same_calls :=
  split; [reflexivity|];
  unfold remoteCalls; cbn; rewrite ?List.filter_app; cbn; by rewrite ?app_nil_r.

Lemma PolicyForm_onSubmit_calls data :
  callsAtMostOnce P (PolicyForm.onSubmit E data).
Proof.
  intros v. unfold PolicyForm.onSubmit. run_cases.
  all: first [ left; same_calls | right ].
  eexists _, _. split; [reflexivity|]. split.
  - unfold remoteCalls. cbn. rewrite !List.filter_app. cbn. by rewrite !app_nil_r.
  - intros outcome w. destruct outcome; run_cases; same_calls.
Qed.

Lemma Login_onSubmit_calls values :
  callsAtMostOnce P (Login.onSubmit E values).
Proof.
  intros v. unfold Login.onSubmit. run_cases. right.
  eexists _, _. split; [reflexivity|]. split.
  - unfold remoteCalls. cbn. rewrite !List.filter_app. cbn. by rewrite !app_nil_r.
  - intros outcome w. destruct outcome; run_cases; same_calls.
Qed.

End LoginPaths.

Section CallFacts.
Import JS Zod Async Form Spec Page.

Variable P : Props.
Variable emailRegex : jsstring -> bool.
Variable C : Component.

Hypothesis onSubmit_calls : forall data, callsAtMostOnce P (onSubmit C data).

Lemma step_calls v ev :
  Forall (quiet P) (pending v) ->
  Forall (quiet P) (pending (step P emailRegex C v ev))
  /\ (length (remoteCalls (step P emailRegex C v ev))
      <= length (remoteCalls v) + submitCount [ev])%nat.
Proof.
  intros Hquiet. destruct ev as [name value| |i outcome]; simpl.
  - split; [done|]. unfold remoteCalls. simpl. lia.
  - destruct (isSubmitting v); [split; [done|lia]|]. unfold handleSubmit.
    destruct (zodResolver emailRegex (schema C) (values v)) as [data|errs].
    + destruct (onSubmit_calls data (set_errors ∅ v))
        as [[Hp Hc]|(op & k & Hp & Hc & Hk)]; rewrite Hp, Hc; simpl.
      * split; [done|]. unfold remoteCalls. simpl. lia.
      * split; [apply Forall_app; split; [done|by constructor]|].
        rewrite length_app. unfold remoteCalls. simpl. lia.
    + split; [done|]. unfold remoteCalls. simpl. lia.
  - destruct (pending v !! i) as [k|] eqn:Hk; [|split; [done|lia]].
    pose proof (Forall_lookup_1 _ _ _ _ Hquiet Hk) as Hquietk.
    destruct (Hquietk outcome (set_pending (delete i (pending v)) v)) as [-> ->].
    simpl. split; [by apply Forall_delete|]. unfold remoteCalls. simpl. lia.
Qed.

Lemma steps_calls evs v :
  Forall (quiet P) (pending v) ->
  (length (remoteCalls (steps P emailRegex C evs v))
   <= length (remoteCalls v) + submitCount evs)%nat.
Proof.
  revert v. induction evs as [|ev evs IH]; intros v Hquiet; [simpl; lia|].
  destruct (step_calls v ev Hquiet) as [Hquiet' Hstep].
  specialize (IH _ Hquiet').
  change (steps P emailRegex C (ev :: evs) v)
    with (steps P emailRegex C evs (step P emailRegex C v ev)).
  assert (submitCount (ev :: evs) = submitCount [ev] + submitCount evs)%nat as ->
      by (by destruct ev).
  lia.
Qed.

End CallFacts.

(** X11. From the mounting of a form on, whatever the events, there are
    never more remote calls than submit triggers: typing issues none,
    the settling of a call issues none (there is no automatic retry),
    and a submit trigger issues at most one. This holds for the policy
    form and for the login form. *)
Theorem remote_calls_bounded_by_submits :
  forall (E : JS.Engine) (P : Form.Props) (emailRegex : JS.jsstring -> bool)
         (evs : list Form.Event),
    (length (Form.remoteCalls
               (Form.steps P emailRegex (PolicyForm.component E) evs
                  (Form.mount (PolicyForm.component E))))
     <= Page.submitCount evs)%nat
    /\ (length (Form.remoteCalls
                  (Form.steps P emailRegex (Login.component E) evs
                     (Form.mount (Login.component E))))
        <= Page.submitCount evs)%nat.
Proof.
  intros E P emailRegex evs. split.
  - apply (steps_calls P emailRegex (PolicyForm.component E)
             (PolicyForm_onSubmit_calls E P) evs (Form.mount (PolicyForm.component E))).
    constructor.
  - apply (steps_calls P emailRegex (Login.component E)
             (Login_onSubmit_calls E P) evs (Form.mount (Login.component E))).
    constructor.
Qed.

(** X12. A submit trigger on an idle login form whose values pass
    validation sends the email and the password exactly as they were
    typed, with no trimming or case change; values that pass have an
    email that matches the pattern of zod and a password that is not
    empty. *)
Theorem login_sends_typed_credentials :
  forall (E : JS.Engine) (P : Form.Props) (emailRegex : JS.jsstring -> bool)
         (v : Form.View) (data : gmap string JS.jsstring),
    Form.idle v ->
    Zod.zodResolver emailRegex Login.formSchema (Form.values v) = Zod.Valid data ->
    exists email password,
      Form.values v !! "email"%string = Some email
      /\ Form.values v !! "password"%string = Some password
      /\ emailRegex email = true
      /\ password <> []
      /\ Form.remoteCalls (Form.step P emailRegex (Login.component E) v Form.Submit)
         = Form.remoteCalls v
             ++ [Async.LoginWith (JS.JObj [("email"%string, JS.JStr email);
                                           ("password"%string, JS.JStr password)])].
Proof.
  intros E P emailRegex v data [Hflag Hpending] Hvalid.
  destruct (Login_valid _ _ _ Hvalid)
    as (email & password & [He Hde] & [Hp Hdp] & Hregex & Hnonempty).
  exists email, password. repeat (split; [done|]).
  rewrite (step_Submit_valid _ _ _ _ data) by done.
  cbn [Login.component Form.onSubmit]. unfold Login.onSubmit, Form.remoteCalls. cbn.
  rewrite !List.filter_app. cbn. rewrite !app_nil_r.
  unfold Login.credentials. by rewrite (field_lookup _ _ _ Hde), (field_lookup _ _ _ Hdp).
Qed.

(** X12 at the sample account. *)
Lemma login_sends_typed_credentials_witness :
  exists email password,
    Form.values Sample.loginView !! "email"%string = Some email
    /\ Form.values Sample.loginView !! "password"%string = Some password
    /\ Sample.emailRegex email = true
    /\ password <> []
    /\ Form.remoteCalls
         (Form.step Sample.props Sample.emailRegex (Login.component Sample.engine)
            Sample.loginView Form.Submit)
       = Form.remoteCalls Sample.loginView
           ++ [Async.LoginWith (JS.JObj [("email"%string, JS.JStr email);
                                         ("password"%string, JS.JStr password)])].
Proof.
  apply (login_sends_typed_credentials Sample.engine Sample.props Sample.emailRegex
           Sample.loginView Sample.account).
  all: by vm_compute.
Defined.

(** X13. A submit trigger on an idle login form whose values pass
    validation, followed by the resolution of the login call with a
    truthy value: the handler logs, navigates once, to /dashboard, and
    takes the flag down; the error message stays empty. *)
Theorem successful_login_navigates :
  forall (E : JS.Engine) (P : Form.Props) (emailRegex : JS.jsstring -> bool)
         (v : Form.View) (values : gmap string JS.jsstring) (success : JS.jsval),
    Form.idle v ->
    Zod.zodResolver emailRegex Login.formSchema (Form.values v) = Zod.Valid values ->
    JS.truthy success = true ->
    let v' := Form.steps P emailRegex (Login.component E)
                [Form.Submit; Form.Settle 0 (JS.Normal success)] v in
    Form.effects v'
    = Form.effects v
        ++ [Async.SetIsSubmitting true; Async.SetError (JS.JStr []);
            Async.LoginWith (Login.credentials values);
            Async.ConsoleLog [JS.JStr (JS.js "Login successful, navigating to dashboard")];
            Async.Navigate (JS.js "/dashboard");
            Async.SetIsSubmitting false]
    /\ Form.error v' = JS.JStr []
    /\ Page.errorBanner v' = None
    /\ Form.idle v'.
Proof.
  intros E P emailRegex v values success Hidle Hvalid Htruthy v'. unfold v'.
  rewrite (Login_successful E P emailRegex v values success) by done.
  destruct Hidle as [Hflag Hpending]. cbn. by rewrite <- !app_assoc.
Qed.

(** X13 at the sample account, the login resolving with [true]. *)
Lemma successful_login_navigates_witness :
  let v' := Form.steps Sample.props Sample.emailRegex (Login.component Sample.engine)
              [Form.Submit; Form.Settle 0 (JS.Normal (JS.JBool true))] Sample.loginView in
  Form.effects v'
  = Form.effects Sample.loginView
      ++ [Async.SetIsSubmitting true; Async.SetError (JS.JStr []);
          Async.LoginWith (Login.credentials Sample.account);
          Async.ConsoleLog [JS.JStr (JS.js "Login successful, navigating to dashboard")];
          Async.Navigate (JS.js "/dashboard");
          Async.SetIsSubmitting false]
  /\ Form.error v' = JS.JStr []
  /\ Page.errorBanner v' = None
  /\ Form.idle v'.
Proof.
  apply (successful_login_navigates Sample.engine Sample.props Sample.emailRegex
           Sample.loginView Sample.account (JS.JBool true)).
  all: by vm_compute.
Defined.

(** X14. A submit trigger on an idle login form whose values pass
    validation, followed by the rejection of the login call with an
    error whose message can be read: the handler logs the error, sets
    the error message to the message of the error, or to "Invalid email
    or password" when that one is falsy, and does not navigate. The
    banner of the page then always shows a text: the message set is
    never a falsy one. *)
Theorem rejected_login_shows_error :
  forall (E : JS.Engine) (P : Form.Props) (emailRegex : JS.jsstring -> bool)
         (v : Form.View) (values : gmap string JS.jsstring) (err message : JS.jsval),
    Form.idle v ->
    Zod.zodResolver emailRegex Login.formSchema (Form.values v) = Zod.Valid values ->
    JS.getMessage E err = JS.Normal message ->
    let shown := JS.or_else message (JS.JStr (JS.js "Invalid email or password")) in
    let v' := Form.steps P emailRegex (Login.component E)
                [Form.Submit; Form.Settle 0 (JS.Abrupt err)] v in
    Form.effects v'
    = Form.effects v
        ++ [Async.SetIsSubmitting true; Async.SetError (JS.JStr []);
            Async.LoginWith (Login.credentials values);
            Async.ConsoleError [JS.JStr (JS.js "Login error:"); err];
            Async.SetError shown;
            Async.SetIsSubmitting false]
    /\ Form.error v' = shown
    /\ Page.errorBanner v' = Some shown
    /\ (forall m, message = JS.JStr m -> m <> [] -> shown = JS.JStr m)
    /\ Form.values v' = Form.values v
    /\ Form.idle v'.
Proof.
  intros E P emailRegex v values err message Hidle Hvalid Hmessage shown v'. unfold v'.
  rewrite (Login_rejected E P emailRegex v values err message) by done.
  destruct Hidle as [Hflag Hpending]. unfold Page.errorBanner. cbn.
  rewrite <- !app_assoc. fold shown.
  assert (JS.truthy shown = true) as -> by (by apply or_else_truthy).
  repeat split; try done.
  intros m -> Hne. unfold shown, JS.or_else. cbn.
  unfold JS.jsstring_eqb. by rewrite bool_decide_false.
Qed.

(** X14 at the sample account, rejected with "Invalid credentials". *)
Lemma rejected_login_shows_error_witness :
  let message := JS.JStr (JS.js "Invalid credentials") in
  let shown := JS.or_else message (JS.JStr (JS.js "Invalid email or password")) in
  let v' := Form.steps Sample.props Sample.emailRegex (Login.component Sample.engine)
              [Form.Submit; Form.Settle 0 (JS.Abrupt Scenario.invalidCredentials)]
              Sample.loginView in
  Form.effects v'
  = Form.effects Sample.loginView
      ++ [Async.SetIsSubmitting true; Async.SetError (JS.JStr []);
          Async.LoginWith (Login.credentials Sample.account);
          Async.ConsoleError [JS.JStr (JS.js "Login error:"); Scenario.invalidCredentials];
          Async.SetError shown;
          Async.SetIsSubmitting false]
  /\ Form.error v' = shown
  /\ Page.errorBanner v' = Some shown
  /\ (forall m, message = JS.JStr m -> m <> [] -> shown = JS.JStr m)
  /\ Form.values v' = Form.values Sample.loginView
  /\ Form.idle v'.
Proof.
  apply (rejected_login_shows_error Sample.engine Sample.props Sample.emailRegex
           Sample.loginView Sample.account Scenario.invalidCredentials).
  all: by vm_compute.
Defined.

Section LoginBanner.
Import JS Zod Async Form Spec Page.

Variable E : Engine.
Variable P : Props.
Variable emailRegex : jsstring -> bool.



End LoginBanner.



(** X1 at the sample policy with a short name and the value "-5". *)
Lemma policy_field_messages_witness :
  let values := <["name"%string := JS.js "Li"]> (<["value"%string := JS.js "-5"]> Sample.policy) in
  let shown := Page.fieldError Sample.emailRegex PolicyForm.formSchema values in
  shown "name"%string
  = (if (length (JS.js "Li") <? 3)%nat
     then Some (JS.js "Policy name must be at least 3 characters") else None)
  /\ shown "company"%string
     = (if (length (JS.js "Met") <? 2)%nat
        then Some (JS.js "Company name must be at least 2 characters") else None)
  /\ shown "value"%string
     = (if JS.gt (JS.StringToNumber (JS.js "-5")) (JS.num 0)
        then None else Some (JS.js "Value must be a positive number"))
  /\ shown "premium"%string
     = (if JS.gt (JS.StringToNumber (JS.js "50")) (JS.num 0)
        then None else Some (JS.js "Premium must be a positive number"))
  /\ shown "startDate"%string
     = (match JS.js "2024-01-01" with
        | [] => Some (JS.js "Start date is required") | _ => None end)
  /\ shown "endDate"%string
     = (match JS.js "2025-01-01" with
        | [] => Some (JS.js "End date is required") | _ => None end)
  /\ shown "nominees"%string
     = (if JS.gt (JS.StringToNumber (JS.js "2")) (JS.num 0)
           && JS.le (JS.StringToNumber (JS.js "2")) (JS.num 5)
        then None else Some (JS.js "Nominees must be between 1 and 5")).
Proof.
  intros values.
  apply (policy_field_messages Sample.emailRegex values).
  all: by vm_compute.
Defined.

(** X2 at an address without an at sign and an empty password. *)
Lemma login_field_messages_witness :
  let values : gmap string JS.jsstring :=
    <["email"%string := JS.js "user"]> (<["password"%string := []]> ∅) in
  let shown := Page.fieldError Sample.emailRegex Login.formSchema values in
  shown "email"%string
  = (if Sample.emailRegex (JS.js "user")
     then None else Some (JS.js "Please enter a valid email address"))
  /\ shown "password"%string
     = (match @nil N with [] => Some (JS.js "Password is required") | _ => None end).
Proof.
  intros values.
  apply (login_field_messages Sample.emailRegex values).
  all: by vm_compute.
Defined.

(** X3 at the sample policy and the same policy with another company. *)
Lemma field_message_is_local_witness :
  let values' := <["company"%string := JS.js "M"]> Sample.policy in
  Page.fieldError Sample.emailRegex PolicyForm.formSchema Sample.policy "name"
  = Page.fieldError Sample.emailRegex PolicyForm.formSchema values' "name"
  /\ Page.fieldError Sample.emailRegex Login.formSchema Sample.policy "name"
     = Page.fieldError Sample.emailRegex Login.formSchema values' "name".
Proof.
  intros values'.
  apply (field_message_is_local Sample.emailRegex Sample.policy values' "name").
  by vm_compute.
Defined.

Section Unused.
Import JS Zod Async Form Spec Page.

Variable E : Engine.
Variable P : Props.
Variable emailRegex : jsstring -> bool.

(** The policy handler reads six fields of its argument. *)
Lemma PolicyForm_onSubmit_reads data data' :
  (forall key, key <> "nominees"%string -> data !! key = data' !! key) ->
  PolicyForm.onSubmit E data = PolicyForm.onSubmit E data'.
Proof.
  intros Hsame. unfold PolicyForm.onSubmit, PolicyForm.newPolicy.
  assert (forall key, key <> "nominees"%string -> field data key = field data' key) as Hfield.
  { intros key Hkey. unfold field. by rewrite (Hsame key Hkey). }
  by rewrite (Hfield "startDate"%string), (Hfield "endDate"%string), (Hfield "name"%string),
    (Hfield "company"%string), (Hfield "value"%string), (Hfield "premium"%string).
Qed.

(** The operations of a run do not depend on the state it starts in. *)
Lemma run_effects t w w' :
  effects w = effects w' -> effects (run P t w) = effects (run P t w').
Proof.
  revert w w'. induction t as [a|e|op k IH]; intros w w' Hsame; simpl; [done..|].
  destruct (isRemote op); [simpl; by rewrite Hsame|].
  apply IH. simpl. by rewrite Hsame.
Qed.

Lemma zodResolver_Valid_lookup schema values data key :
  NoDup schema.*1 ->
  zodResolver emailRegex schema values = Valid data ->
  data !! key = if decide (key ∈ schema.*1) then values !! key else None.
Proof.
  intros Hnodup Hvalid. case_decide as Hkey.
  - apply list_elem_of_fmap in Hkey as [[key' t] [-> Hin]].
    by destruct (zodResolver_Valid _ _ _ _ Hvalid _ _ Hin).
  - rewrite zodResolver_unfold in Hvalid.
    destruct (issuesOf emailRegex schema values); [|done]. injection Hvalid as <-.
    clear Hnodup. induction schema as [|[key' t] schema IH]; simpl; [done|].
    apply not_elem_of_cons in Hkey as [Hne Hkey]. simpl in Hne.
    specialize (IH Hkey).
    destruct (parseObject emailRegex schema values) as [issues out]. simpl in *.
    destruct (values !! key'); [by rewrite lookup_insert_ne|done].
Qed.

End Unused.

(** X16. The number of nominees has no part in what a submission does:
    two idle policy forms that differ in the nominees field only, both
    passing validation, perform the same operations on a submit
    trigger, the payload sent included. *)
Theorem nominees_do_not_reach_the_service :
  forall (E : JS.Engine) (P : Form.Props) (emailRegex : JS.jsstring -> bool)
         (v : Form.View) (nominees : JS.jsstring) (data data' : gmap string JS.jsstring),
    Form.isSubmitting v = false ->
    Zod.zodResolver emailRegex PolicyForm.formSchema (Form.values v) = Zod.Valid data ->
    Zod.zodResolver emailRegex PolicyForm.formSchema
      (<["nominees"%string := nominees]> (Form.values v)) = Zod.Valid data' ->
    Form.effects
      (Form.step P emailRegex (PolicyForm.component E)
         (Form.set_values (insert "nominees"%string nominees) v) Form.Submit)
    = Form.effects (Form.step P emailRegex (PolicyForm.component E) v Form.Submit).
Proof.
  intros E P emailRegex v nominees data data' Hflag Hvalid Hvalid'.
  rewrite (step_Submit_valid P emailRegex (PolicyForm.component E) v data) by done.
  rewrite (step_Submit_valid P emailRegex (PolicyForm.component E)
             (Form.set_values (insert "nominees"%string nominees) v) data') by done.
  cbn [PolicyForm.component Form.onSubmit].
  rewrite (PolicyForm_onSubmit_reads E data' data); [by apply run_effects|].
  intros key Hkey.
  rewrite (zodResolver_Valid_lookup _ _ _ _ key PolicyForm_formSchema_NoDup Hvalid).
  rewrite (zodResolver_Valid_lookup _ _ _ _ key PolicyForm_formSchema_NoDup Hvalid').
  case_decide; [|done]. by rewrite lookup_insert_ne.
Qed.

(** X16 at the sample policy, with five nominees instead of two. *)
Lemma nominees_do_not_reach_the_service_witness :
  Form.effects
    (Form.step Sample.props Sample.emailRegex (PolicyForm.component Sample.engine)
       (Form.set_values (insert "nominees"%string (JS.js "5")) Sample.policyView) Form.Submit)
  = Form.effects
      (Form.step Sample.props Sample.emailRegex (PolicyForm.component Sample.engine)
         Sample.policyView Form.Submit).
Proof.
  apply (nominees_do_not_reach_the_service Sample.engine Sample.props Sample.emailRegex
           Sample.policyView (JS.js "5") Sample.policy
           (<["nominees"%string := JS.js "5"]> Sample.policy)).
  - by vm_compute.
  - by vm_compute.
  - by vm_compute.
Defined.

(** X17. When the remote call rejects with a value whose message cannot
    be read ([undefined] or [null]), the [catch] block throws in its
    turn: the policy form shows no notification at all, the login form
    logs the error but sets no error message, so no banner appears; in
    both the flag is taken down and the form is idle again. *)
Theorem unreadable_rejection_is_silent :
  forall (E : JS.Engine) (P : Form.Props) (emailRegex : JS.jsstring -> bool)
         (v : Form.View) (data : gmap string JS.jsstring) (error : JS.jsval),
    Form.idle v ->
    error = JS.JUndefined \/ error = JS.JNull ->
    (forall startDate endDate,
       Zod.zodResolver emailRegex PolicyForm.formSchema (Form.values v) = Zod.Valid data ->
       JS.toISOString E (JS.newDate E (Async.field data "startDate")) = JS.Normal startDate ->
       JS.toISOString E (JS.newDate E (Async.field data "endDate")) = JS.Normal endDate ->
       let v' := Form.steps P emailRegex (PolicyForm.component E)
                   [Form.Submit; Form.Settle 0 (JS.Abrupt error)] v in
       Form.effects v'
       = Form.effects v
           ++ [Async.SetIsSubmitting true;
               Async.ConsoleLog [JS.JStr (JS.js "Submitting policy to backend:");
                                 PolicyForm.newPolicy data startDate endDate];
               Async.AddPolicy (PolicyForm.newPolicy data startDate endDate);
               Async.SetIsSubmitting false]
       /\ Form.idle v')
    /\ (Zod.zodResolver emailRegex Login.formSchema (Form.values v) = Zod.Valid data ->
        let v' := Form.steps P emailRegex (Login.component E)
                    [Form.Submit; Form.Settle 0 (JS.Abrupt error)] v in
        Form.effects v'
        = Form.effects v
            ++ [Async.SetIsSubmitting true; Async.SetError (JS.JStr []);
                Async.LoginWith (Login.credentials data);
                Async.ConsoleError [JS.JStr (JS.js "Login error:"); error];
                Async.SetIsSubmitting false]
        /\ Page.errorBanner v' = None
        /\ Form.idle v').
Proof.
  intros E P emailRegex v data error [Hflag Hpending] Herror. split.
  - intros startDate endDate Hvalid Hstart Hend v'. unfold v', Form.steps.
    cbn [fold_left]. rewrite (step_Submit_valid _ _ _ _ data) by done.
    cbn [PolicyForm.component Form.onSubmit]. unfold PolicyForm.onSubmit. cbn.
    rewrite Hstart. cbn. rewrite Hend. cbn. rewrite Hpending. cbn.
    destruct Herror as [-> | ->]; cbn; by rewrite <- !app_assoc.
  - intros Hvalid v'. unfold v', Form.steps, Page.errorBanner.
    cbn [fold_left]. rewrite (step_Submit_valid _ _ _ _ data) by done.
    cbn [Login.component Form.onSubmit]. unfold Login.onSubmit. cbn.
    rewrite Hpending. cbn.
    destruct Herror as [-> | ->]; cbn; by rewrite <- !app_assoc.
Qed.

(** X17 at the sample account, the login call rejecting with
    [undefined]. *)
Lemma unreadable_rejection_is_silent_witness :
  let v' := Form.steps Sample.props Sample.emailRegex (Login.component Sample.engine)
              [Form.Submit; Form.Settle 0 (JS.Abrupt JS.JUndefined)] Sample.loginView in
  Form.effects v'
  = Form.effects Sample.loginView
      ++ [Async.SetIsSubmitting true; Async.SetError (JS.JStr []);
          Async.LoginWith (Login.credentials Sample.account);
          Async.ConsoleError [JS.JStr (JS.js "Login error:"); JS.JUndefined];
          Async.SetIsSubmitting false]
  /\ Page.errorBanner v' = None
  /\ Form.idle v'.
Proof.
  apply (proj2 (unreadable_rejection_is_silent Sample.engine Sample.props Sample.emailRegex
                  Sample.loginView Sample.account JS.JUndefined
                  ltac:(by vm_compute) ltac:(by left))).
  by vm_compute.
Defined.
